(** * User service: authentication and account lifecycle

    A shallow embedding of the authentication core of the user service
    (utils/auth.py, db/models/user.py, db/dals/user_dal.py and the routers
    auth_router.py, admin_router.py, password_reset.py, email_verification.py)
    together with the properties its specification states about it.

    Conventions of the embedding.
    - A Python [str] is a Rocq [string]: a sequence of characters with codes
      below 256.  On these characters the regular-expression class [\d]
      is exactly [0-9].
    - A [datetime] is a number of seconds ([Z]); a nullable column is an
      [option].  Every [datetime.utcnow()] of one request reads the same
      instant [now], which the request receives as an argument.
    - Values drawn from [secrets.token_urlsafe] are arguments of the operation
      that draws them.
    - bcrypt, SHA-256 and the process configuration are the fields of an
      environment [Env] that the operations receive. *)

From Stdlib Require Import String Ascii List ZArith NArith Bool Lia.
From Stdlib Require Import DecimalString DecimalZ.
Import ListNotations.
Local Open Scope string_scope.
Local Open Scope Z_scope.

(** ** Strings, as Python reads them *)

Module Str.

Definition code (c : ascii) : N := N_of_ascii c.

(** [str.isspace] on characters below 256. *)
Definition isspace (c : ascii) : bool :=
  let n := code c in
  (((9 <=? n) && (n <=? 13)) || ((28 <=? n) && (n <=? 32))
   || (n =? 133) || (n =? 160))%N.

Fixpoint lstrip (s : string) : string :=
  match s with
  | EmptyString => EmptyString
  | String c rest => if isspace c then lstrip rest else s
  end.

Fixpoint rstrip (s : string) : string :=
  match s with
  | EmptyString => EmptyString
  | String c rest =>
      match rstrip rest with
      | EmptyString => if isspace c then EmptyString else String c EmptyString
      | kept => String c kept
      end
  end.

(** [s.strip()] *)
Definition strip (s : string) : string := rstrip (lstrip s).

(** [str.lower] on one character below 256: the letters A-Z and the
    accented capitals 192-222 (the multiplication sign 215 apart) move up by
    32. *)
Definition lower_char (c : ascii) : ascii :=
  let n := code c in
  if (((65 <=? n) && (n <=? 90))
      || ((192 <=? n) && (n <=? 222) && negb (n =? 215)))%N
  then ascii_of_N (n + 32) else c.

(** [s.lower()] *)
Fixpoint lower (s : string) : string :=
  match s with
  | EmptyString => EmptyString
  | String c rest => String (lower_char c) (lower rest)
  end.

(** [str(n)] of an integer and [int(s)] of a string, [None] standing for
    [ValueError].  [int] reads an optional minus sign and decimal digits. *)
Definition str (n : Z) : string := NilZero.string_of_int (Z.to_int n).
Definition int (s : string) : option Z :=
  option_map Z.of_int (NilZero.int_of_string s).

End Str.

(** ** Regular expressions of utils/auth.py and the request models

    A matcher by derivatives for the fragment the service uses: character
    classes, sequence, [+] and [{2,}]. *)

Module Re.

Inductive regex : Type :=
| Eps : regex
| Void : regex
| Cls (cls : ascii -> bool) : regex
| Seq (r1 r2 : regex) : regex
| Alt (r1 r2 : regex) : regex
| Star (r : regex) : regex.

Definition Plus (r : regex) : regex := Seq r (Star r).
Definition AtLeast2 (r : regex) : regex := Seq r (Seq r (Star r)).
Definition Chr (c : ascii) : regex := Cls (Ascii.eqb c).

Fixpoint nullable (r : regex) : bool :=
  match r with
  | Eps => true
  | Void => false
  | Cls _ => false
  | Seq r1 r2 => nullable r1 && nullable r2
  | Alt r1 r2 => nullable r1 || nullable r2
  | Star _ => true
  end.

Fixpoint deriv (c : ascii) (r : regex) : regex :=
  match r with
  | Eps => Void
  | Void => Void
  | Cls cls => if cls c then Eps else Void
  | Seq r1 r2 =>
      if nullable r1 then Alt (Seq (deriv c r1) r2) (deriv c r2)
      else Seq (deriv c r1) r2
  | Alt r1 r2 => Alt (deriv c r1) (deriv c r2)
  | Star r1 => Seq (deriv c r1) (Star r1)
  end.

(** The whole of [s] is a word of [r]. *)
Fixpoint fullmatch (r : regex) (s : string) : bool :=
  match s with
  | EmptyString => nullable r
  | String c rest => fullmatch (deriv c r) rest
  end.

Definition newline : ascii := ascii_of_nat 10.

Fixpoint drop_final_newline (s : string) : option string :=
  match s with
  | EmptyString => None
  | String c EmptyString => if Ascii.eqb c newline then Some EmptyString else None
  | String c rest => option_map (String c) (drop_final_newline rest)
  end.

(** [re.match] of the anchored pattern [^r$]: the dollar stands at the end
    of the subject or just before a newline that ends it. *)
Definition match_anchored (r : regex) (s : string) : bool :=
  fullmatch r s
  || match drop_final_newline s with
     | Some body => fullmatch r body
     | None => false
     end.

End Re.

(** ** python-jose, as the service uses it

    A token is kept in symbolic form.  [Signed alg key payload] is the compact
    serialisation of [payload] signed under [key] with algorithm [alg]; any
    other string is [Malformed].  A signature verifies under the key that
    made it and under no other.  Of the registered claims, [decode] checks
    the expiry: a token whose [exp] lies before the present instant is
    refused. *)

Module Jose.

Inductive jval : Type :=
| JStr (s : string)
| JInt (n : Z).

(** A claims dictionary, in insertion order. *)
Definition claims : Type := list (string * jval).

Fixpoint dict_get (k : string) (d : claims) : option jval :=
  match d with
  | [] => None
  | (k', v) :: rest => if String.eqb k k' then Some v else dict_get k rest
  end.

(** [d[k] = v] *)
Fixpoint dict_set (k : string) (v : jval) (d : claims) : claims :=
  match d with
  | [] => [(k, v)]
  | (k', v') :: rest =>
      if String.eqb k k' then (k', v) :: rest
      else (k', v') :: dict_set k v rest
  end.

(** [d.update(other)] *)
Definition dict_update (d other : claims) : claims :=
  fold_left (fun acc kv => dict_set (fst kv) (snd kv) acc) other d.

Inductive token : Type :=
| Signed (alg : string) (key : string) (payload : claims)
| Malformed (raw : string).

(** The exceptions of [jose.exceptions]; the last two derive from the
    first. *)
Inductive JoseError : Type :=
| JWTError
| ExpiredSignatureError
| JWTClaimsError.

Definition is_JWTError (e : JoseError) : bool :=
  match e with
  | JWTError | ExpiredSignatureError | JWTClaimsError => true
  end.

(** [jwt.encode(claims, key, algorithm=alg)] *)
Definition encode (payload : claims) (key alg : string) : token :=
  Signed alg key payload.

Definition validate_exp (payload : claims) (now : Z) : option JoseError :=
  match dict_get "exp" payload with
  | None => None
  | Some (JStr _) => Some JWTClaimsError
  | Some (JInt exp) => if exp <? now then Some ExpiredSignatureError else None
  end.

(** [jwt.decode(token, key, algorithms=algs)] at the instant [now]: the
    payload, or the exception raised. *)
Definition decode (t : token) (key : string) (algs : list string) (now : Z)
  : JoseError + claims :=
  match t with
  | Malformed _ => inl JWTError
  | Signed alg k payload =>
      if existsb (String.eqb alg) algs && String.eqb k key then
        match validate_exp payload now with
        | Some e => inl e
        | None => inr payload
        end
      else inl JWTError
  end.

End Jose.

(** ** db/config.py and the cryptographic libraries

    [SECRET_KEY], [ALGORITHM] and [ACCESS_TOKEN_EXPIRE_MINUTES] are read from
    the process environment at start-up.  [bcrypt_hash] is passlib's
    [pwd_context.hash] with the salt it draws, [bcrypt_verify] its [verify],
    and [sha256_hexdigest s] is [hashlib.sha256(s.encode()).hexdigest()]. *)

Record Env : Type := mkEnv {
  SECRET_KEY : string;
  ALGORITHM : string;
  ACCESS_TOKEN_EXPIRE_MINUTES : Z;
  bcrypt_hash : string -> string -> string;
  bcrypt_verify : string -> string -> bool;
  sha256_hexdigest : string -> string
}.

(** ** Exceptions *)

Inductive exn : Type :=
| HTTPException (status_code : Z) (detail : string)
| JoseException (e : Jose.JoseError)
| ValueError
| IntegrityError
| ProgrammingError
| AttributeError.

(** What a call does: it returns a value or raises. *)
Inductive outcome (A : Type) : Type :=
| Return (a : A)
| Raise (e : exn).
Arguments Return {A} a.
Arguments Raise {A} e.

(** ** utils/auth.py *)

Module auth.

(** [re.search] of a one-character class: some character of the subject
    belongs to the class. *)
Fixpoint re_search (cls : ascii -> bool) (s : string) : bool :=
  match s with
  | EmptyString => false
  | String c rest => cls c || re_search cls rest
  end.

Definition code : ascii -> N := Str.code.

Definition in_range (lo hi : ascii) (c : ascii) : bool :=
  ((code lo <=? code c) && (code c <=? code hi))%N.

(** [[A-Z]], [[a-z]] and [\d]. *)
Definition cls_upper : ascii -> bool := in_range "A" "Z".
Definition cls_lower : ascii -> bool := in_range "a" "z".
Definition cls_digit : ascii -> bool := in_range "0" "9".

Definition dquote : ascii := ascii_of_nat 34.

(** The characters of the last class of the policy: thirteen marks, the
    double quote (code 34), then six more. *)
Definition special_characters : string :=
  "!@#$%^&*(),.?" ++ String dquote ":{}|<>".

Fixpoint mem_ascii (c : ascii) (s : string) : bool :=
  match s with
  | EmptyString => false
  | String d rest => Ascii.eqb c d || mem_ascii c rest
  end.

Definition cls_special (c : ascii) : bool := mem_ascii c special_characters.

Definition validate_password_strength (password : string) : bool * string :=
  if (Z.of_nat (String.length password) <? 8) then
    (false, "Password must be at least 8 characters long")
  else if negb (re_search cls_upper password) then
    (false, "Password must contain at least one uppercase letter")
  else if negb (re_search cls_lower password) then
    (false, "Password must contain at least one lowercase letter")
  else if negb (re_search cls_digit password) then
    (false, "Password must contain at least one number")
  else if negb (re_search cls_special password) then
    (false, "Password must contain at least one special character")
  else (true, "Password is strong").

Definition cls_alnum (c : ascii) : bool :=
  cls_upper c || cls_lower c || cls_digit c.

(** The pattern of [validate_email]: a local part of letters, digits and
    [._%+-], an at sign, a domain of letters, digits, dots and dashes, a dot
    and at least two letters. *)
Definition email_pattern : Re.regex :=
  Re.Seq (Re.Plus (Re.Cls (fun c => cls_alnum c || mem_ascii c "._%+-")))
    (Re.Seq (Re.Chr "@")
       (Re.Seq (Re.Plus (Re.Cls (fun c => cls_alnum c || mem_ascii c ".-")))
          (Re.Seq (Re.Chr ".")
             (Re.AtLeast2 (Re.Cls (fun c => cls_upper c || cls_lower c)))))).

Definition validate_email (email : string) : bool * string :=
  if Re.match_anchored email_pattern email then (true, "Valid email")
  else (false, "Invalid email format").

(** [re.sub] of every character outside a class by the empty string. *)
Fixpoint re_sub_outside (keep : ascii -> bool) (s : string) : string :=
  match s with
  | EmptyString => EmptyString
  | String c rest =>
      if keep c then String c (re_sub_outside keep rest)
      else re_sub_outside keep rest
  end.

Definition validate_mobile (mobile : string) : bool * string :=
  let clean_mobile :=
    re_sub_outside (fun c => cls_digit c || Ascii.eqb c "+") mobile in
  if Z.of_nat (String.length clean_mobile) <? 8 then
    (false, "Mobile number too short")
  else if Z.of_nat (String.length clean_mobile) >? 15 then
    (false, "Mobile number too long")
  else (true, "Valid mobile number").

(** The policy in the words of the specification. *)




(** Passwords and bearer tokens. *)

Section WithEnv.

Variable E : Env.

Definition hash_password (password salt : string) : string :=
  bcrypt_hash E password salt.

Definition verify_password (plain_password hashed_password : string) : bool :=
  bcrypt_verify E plain_password hashed_password.

(** [expires_delta] is a number of seconds; like [None], a zero
    [timedelta] is false in a condition. *)
Definition create_access_token (data : Jose.claims) (expires_delta : option Z)
    (now : Z) (token_id : string) : Jose.token * string :=
  let to_encode := data in
  let expire :=
    match expires_delta with
    | Some delta =>
        if negb (delta =? 0) then now + delta
        else now + ACCESS_TOKEN_EXPIRE_MINUTES E * 60
    | None => now + ACCESS_TOKEN_EXPIRE_MINUTES E * 60
    end in
  let to_encode :=
    Jose.dict_update to_encode
      [("exp", Jose.JInt expire); ("iat", Jose.JInt now);
       ("jti", Jose.JStr token_id)] in
  let encoded_jwt := Jose.encode to_encode (SECRET_KEY E) (ALGORITHM E) in
  (encoded_jwt, token_id).

(** The [try] of [verify_token]: the payload is returned, an exception
    that is a [JWTError] is answered with [None], and any other would reach
    the caller. *)
Definition verify_token (token : Jose.token) (now : Z)
  : outcome (option Jose.claims) :=
  match Jose.decode token (SECRET_KEY E) [ALGORITHM E] now with
  | inr payload => Return (Some payload)
  | inl e => if Jose.is_JWTError e then Return None else Raise (JoseException e)
  end.

End WithEnv.

End auth.

(** ** db/models/user.py *)

Inductive UserStatus : Type :=
| ACTIVE
| BLOCKED
| SUSPENDED
| PENDING_VERIFICATION.

Definition UserStatus_value (s : UserStatus) : string :=
  match s with
  | ACTIVE => "active"
  | BLOCKED => "blocked"
  | SUSPENDED => "suspended"
  | PENDING_VERIFICATION => "pending_verification"
  end.

Definition UserStatus_eqb (a b : UserStatus) : bool :=
  match a, b with
  | ACTIVE, ACTIVE | BLOCKED, BLOCKED | SUSPENDED, SUSPENDED
  | PENDING_VERIFICATION, PENDING_VERIFICATION => true
  | _, _ => false
  end.

Module User.

Record t : Type := mk {
  id : Z;
  name : string;
  email : string;
  mobile : string;
  role : string;
  password : string;
  status : UserStatus;
  is_email_verified : bool;
  created_at : option Z;
  updated_at : option Z;
  last_login : option Z;
  blocked_at : option Z;
  blocked_by : option Z;
  blocked_reason : option string;
  reset_token : option string;
  reset_token_expires : option Z;
  email_verification_token : option string;
  email_verification_expires : option Z;
  verification_sent_at : option Z
}.

Definition is_active (u : t) : bool := UserStatus_eqb (status u) ACTIVE.

Definition is_blocked (u : t) : bool :=
  existsb (UserStatus_eqb (status u)) [BLOCKED; SUSPENDED].

(** One assignment of an [update(User).values(...)], per column. *)
Definition set_name (v : string) (u : t) : t :=
  let 'mk i _ e m r p s ev ca ua ll ba bb br rt re vt ve vs := u in
  mk i v e m r p s ev ca ua ll ba bb br rt re vt ve vs.
Definition set_email (v : string) (u : t) : t :=
  let 'mk i n _ m r p s ev ca ua ll ba bb br rt re vt ve vs := u in
  mk i n v m r p s ev ca ua ll ba bb br rt re vt ve vs.
Definition set_mobile (v : string) (u : t) : t :=
  let 'mk i n e _ r p s ev ca ua ll ba bb br rt re vt ve vs := u in
  mk i n e v r p s ev ca ua ll ba bb br rt re vt ve vs.
Definition set_role (v : string) (u : t) : t :=
  let 'mk i n e m _ p s ev ca ua ll ba bb br rt re vt ve vs := u in
  mk i n e m v p s ev ca ua ll ba bb br rt re vt ve vs.
Definition set_password (v : string) (u : t) : t :=
  let 'mk i n e m r _ s ev ca ua ll ba bb br rt re vt ve vs := u in
  mk i n e m r v s ev ca ua ll ba bb br rt re vt ve vs.
Definition set_status (v : UserStatus) (u : t) : t :=
  let 'mk i n e m r p _ ev ca ua ll ba bb br rt re vt ve vs := u in
  mk i n e m r p v ev ca ua ll ba bb br rt re vt ve vs.
Definition set_is_email_verified (v : bool) (u : t) : t :=
  let 'mk i n e m r p s _ ca ua ll ba bb br rt re vt ve vs := u in
  mk i n e m r p s v ca ua ll ba bb br rt re vt ve vs.
Definition set_updated_at (v : option Z) (u : t) : t :=
  let 'mk i n e m r p s ev ca _ ll ba bb br rt re vt ve vs := u in
  mk i n e m r p s ev ca v ll ba bb br rt re vt ve vs.
Definition set_last_login (v : option Z) (u : t) : t :=
  let 'mk i n e m r p s ev ca ua _ ba bb br rt re vt ve vs := u in
  mk i n e m r p s ev ca ua v ba bb br rt re vt ve vs.
Definition set_blocked_at (v : option Z) (u : t) : t :=
  let 'mk i n e m r p s ev ca ua ll _ bb br rt re vt ve vs := u in
  mk i n e m r p s ev ca ua ll v bb br rt re vt ve vs.
Definition set_blocked_by (v : option Z) (u : t) : t :=
  let 'mk i n e m r p s ev ca ua ll ba _ br rt re vt ve vs := u in
  mk i n e m r p s ev ca ua ll ba v br rt re vt ve vs.
Definition set_blocked_reason (v : option string) (u : t) : t :=
  let 'mk i n e m r p s ev ca ua ll ba bb _ rt re vt ve vs := u in
  mk i n e m r p s ev ca ua ll ba bb v rt re vt ve vs.
Definition set_reset_token (v : option string) (u : t) : t :=
  let 'mk i n e m r p s ev ca ua ll ba bb br _ re vt ve vs := u in
  mk i n e m r p s ev ca ua ll ba bb br v re vt ve vs.
Definition set_reset_token_expires (v : option Z) (u : t) : t :=
  let 'mk i n e m r p s ev ca ua ll ba bb br rt _ vt ve vs := u in
  mk i n e m r p s ev ca ua ll ba bb br rt v vt ve vs.
Definition set_email_verification_token (v : option string) (u : t) : t :=
  let 'mk i n e m r p s ev ca ua ll ba bb br rt re _ ve vs := u in
  mk i n e m r p s ev ca ua ll ba bb br rt re v ve vs.
Definition set_email_verification_expires (v : option Z) (u : t) : t :=
  let 'mk i n e m r p s ev ca ua ll ba bb br rt re vt _ vs := u in
  mk i n e m r p s ev ca ua ll ba bb br rt re vt v vs.
Definition set_verification_sent_at (v : option Z) (u : t) : t :=
  let 'mk i n e m r p s ev ca ua ll ba bb br rt re vt ve _ := u in
  mk i n e m r p s ev ca ua ll ba bb br rt re vt ve v.

(** The [values(...)] of an update, applied in the order written. *)
Definition values (assignments : list (t -> t)) (u : t) : t :=
  fold_left (fun row assign => assign row) assignments u.

(** [to_dict] *)
Record dict : Type := mk_dict {
  d_id : Z;
  d_name : string;
  d_email : string;
  d_mobile : string;
  d_role : string;
  d_status : string;
  d_is_email_verified : bool;
  d_created_at : option Z;
  d_last_login : option Z;
  d_blocked_at : option Z;
  d_blocked_reason : option string
}.

Definition to_dict (u : t) : dict :=
  {| d_id := id u;
     d_name := name u;
     d_email := email u;
     d_mobile := mobile u;
     d_role := role u;
     d_status := UserStatus_value (status u);
     d_is_email_verified := is_email_verified u;
     d_created_at := created_at u;
     d_last_login := last_login u;
     d_blocked_at := blocked_at u;
     d_blocked_reason := blocked_reason u |}.

End User.

Module UserSession.

Record t : Type := mk {
  id : Z;
  user_id : Z;
  token_id : string;
  login_time : option Z;
  logout_time : option Z;
  ip_address : option string;
  user_agent : option string;
  is_active : bool
}.

End UserSession.

(** ** The database and the SQLAlchemy session of one request *)

Record Tables : Type := mkTables {
  users : list User.t;
  user_sessions : list UserSession.t;
  user_id_seq : Z;
  session_id_seq : Z
}.

(** The session sees its own writes ([pending]); [commit] makes them the
    stored state, [rollback] and the end of the request drop them. *)
Record AsyncSession : Type := mkSession {
  committed : Tables;
  pending : Tables
}.

(** A coroutine of the service: it runs on the request's session and either
    returns or raises. *)
Definition io (A : Type) : Type := AsyncSession -> outcome A * AsyncSession.

Definition ret {A : Type} (a : A) : io A := fun s => (Return a, s).

Definition bind {A B : Type} (m : io A) (k : A -> io B) : io B :=
  fun s =>
    match m s with
    | (Return a, s') => k a s'
    | (Raise e, s') => (Raise e, s')
    end.

Definition raise {A : Type} (e : exn) : io A := fun s => (Raise e, s).

(** A call that does not touch the session. *)
Definition call {A : Type} (r : outcome A) : io A := fun s => (r, s).

(** [try: body  except ...: handler e] *)
Definition try_except {A : Type} (body : io A) (handler : exn -> io A) : io A :=
  fun s =>
    match body s with
    | (Return a, s') => (Return a, s')
    | (Raise e, s') => handler e s'
    end.

Notation "x <- m ;; k" := (bind m (fun x => k))
  (at level 61, m at next level, right associativity).
Notation "m ;;; k" := (bind m (fun _ => k))
  (at level 61, right associativity).

Definition query {A : Type} (f : Tables -> A) : io A :=
  fun s => (Return (f (pending s)), s).

Definition execute (f : Tables -> Tables) : io unit :=
  fun s => (Return tt, mkSession (committed s) (f (pending s))).

Definition commit : io unit :=
  fun s => (Return tt, mkSession (pending s) (pending s)).

Definition rollback : io unit :=
  fun s => (Return tt, mkSession (committed s) (committed s)).

(** A request served on the stored state [db]: what the caller receives and
    the state stored once the session is closed. *)
Definition serve {A : Type} (handler : io A) (db : Tables) : outcome A * Tables :=
  let (result, s) := handler (mkSession db db) in
  (result, committed s).


(** ** db/dals/user_dal.py *)

Module UserDAL.

Section WithEnv.

Variable E : Env.

(** [q.scalar()] of a select on [user]: the first row, if any. *)
Definition first_user (whereclause : User.t -> bool) (db : Tables) : option User.t :=
  find whereclause (users db).

Definition update_user_where (whereclause : User.t -> bool)
    (assignments : list (User.t -> User.t)) (db : Tables) : Tables :=
  mkTables
    (map (fun u => if whereclause u then User.values assignments u else u) (users db))
    (user_sessions db) (user_id_seq db) (session_id_seq db).

Definition update_session_where (whereclause : UserSession.t -> bool)
    (assign : UserSession.t -> UserSession.t) (db : Tables) : Tables :=
  mkTables (users db)
    (map (fun r => if whereclause r then assign r else r) (user_sessions db))
    (user_id_seq db) (session_id_seq db).

(** The conditions of the selects and updates: [User.id == user_id],
    [User.email == email], and the comparisons of the two token columns,
    which a [NULL] never satisfies. *)
Definition has_id (user_id : Z) (u : User.t) : bool := User.id u =? user_id.

Definition has_email (email : string) (u : User.t) : bool :=
  String.eqb (User.email u) email.

Definition has_reset_token (reset_token : string) (u : User.t) : bool :=
  match User.reset_token u with
  | Some stored => String.eqb stored reset_token
  | None => false
  end.

Definition has_verification_token (verification_token : string) (u : User.t)
  : bool :=
  match User.email_verification_token u with
  | Some stored => String.eqb stored verification_token
  | None => false
  end.

Definition get_user (user_id : string) : io (option User.t) :=
  match Str.int user_id with
  | None => raise ValueError
  | Some n => query (first_user (has_id n))
  end.

Definition get_user_by_email (email : string) : io (option User.t) :=
  query (first_user (has_email email)).

(** The insert of a user: [email] is a unique column, the key comes from
    the table's sequence, and the columns the caller leaves out take their
    defaults. *)
Definition insert_user (name email mobile hashed_password role : string)
    (is_email_verified : bool) (now : Z) : io User.t :=
  fun s =>
    let db := pending s in
    if existsb (has_email email) (users db) then
      (Raise IntegrityError, s)
    else
      let new_user :=
        User.mk (user_id_seq db + 1) name email mobile role hashed_password
          ACTIVE is_email_verified (Some now) (Some now) None
          None None None None None None None None in
      (Return new_user,
       mkSession (committed s)
         (mkTables (users db ++ [new_user]) (user_sessions db)
            (user_id_seq db + 1) (session_id_seq db))).

Definition create_user (name email mobile password role : string)
    (now : Z) (salt : string) : io User.t :=
  let hashed_password := auth.hash_password E password salt in
  insert_user name email mobile hashed_password role false now.

Definition create_user_with_auth (name email mobile password role : string)
    (now : Z) (salt : string) : io User.t :=
  try_except
    (let hashed_password := auth.hash_password E password salt in
     insert_user name email mobile hashed_password role true now)
    (fun e => rollback ;;; raise e).

Definition update_last_login (user_id : Z) (now : Z) : io unit :=
  execute (update_user_where (has_id user_id) [User.set_last_login (Some now)]).

Definition authenticate_user (email password : string) (now : Z)
  : io (option User.t) :=
  user <- get_user_by_email email ;;
  match user with
  | Some u =>
      if User.is_active u && auth.verify_password E password (User.password u) then
        update_last_login (User.id u) now ;;;
        ret (Some u)
      else ret None
  | None => ret None
  end.

Definition block_user (user_id admin_id : Z) (reason : option string)
    (now : Z) : io (option User.t) :=
  execute (update_user_where (has_id user_id)
             [User.set_status BLOCKED;
              User.set_blocked_at (Some now);
              User.set_blocked_by (Some admin_id);
              User.set_blocked_reason reason;
              User.set_updated_at (Some now)]) ;;;
  get_user (Str.str user_id).

Definition unblock_user (user_id : Z) (now : Z) : io (option User.t) :=
  execute (update_user_where (has_id user_id)
             [User.set_status ACTIVE;
              User.set_blocked_at None;
              User.set_blocked_by None;
              User.set_blocked_reason None;
              User.set_updated_at (Some now)]) ;;;
  get_user (Str.str user_id).

Definition suspend_user (user_id admin_id : Z) (reason : option string)
    (now : Z) : io (option User.t) :=
  execute (update_user_where (has_id user_id)
             [User.set_status SUSPENDED;
              User.set_blocked_at (Some now);
              User.set_blocked_by (Some admin_id);
              User.set_blocked_reason reason;
              User.set_updated_at (Some now)]) ;;;
  get_user (Str.str user_id).

(** The insert of a session: [token_id] is a unique column. *)
Definition create_session (user_id : Z) (token_id : string)
    (ip_address user_agent : option string) (now : Z) : io UserSession.t :=
  fun s =>
    let db := pending s in
    if existsb (fun r => String.eqb (UserSession.token_id r) token_id)
         (user_sessions db) then
      (Raise IntegrityError, s)
    else
      let session :=
        UserSession.mk (session_id_seq db + 1) user_id token_id (Some now) None
          ip_address user_agent true in
      (Return session,
       mkSession (committed s)
         (mkTables (users db) (user_sessions db ++ [session])
            (user_id_seq db) (session_id_seq db + 1))).

Definition end_session (token_id : string) (now : Z) : io unit :=
  execute (update_session_where
             (fun r => String.eqb (UserSession.token_id r) token_id)
             (fun r =>
                UserSession.mk (UserSession.id r) (UserSession.user_id r)
                  (UserSession.token_id r) (UserSession.login_time r)
                  (Some now) (UserSession.ip_address r)
                  (UserSession.user_agent r) false)).

Definition get_active_sessions (user_id : Z) : io (list UserSession.t) :=
  query (fun db =>
           filter (fun r => (UserSession.user_id r =? user_id)
                            && Bool.eqb (UserSession.is_active r) true)
             (user_sessions db)).

Definition set_password_reset_token (user_id : Z) (reset_token : string)
    (expires_at : Z) (now : Z) : io (option User.t) :=
  execute (update_user_where (has_id user_id)
             [User.set_reset_token (Some reset_token);
              User.set_reset_token_expires (Some expires_at);
              User.set_updated_at (Some now)]) ;;;
  get_user (Str.str user_id).

Definition get_user_by_reset_token (reset_token : string) : io (option User.t) :=
  query (first_user (has_reset_token reset_token)).

Definition clear_password_reset_token (user_id : Z) (now : Z)
  : io (option User.t) :=
  execute (update_user_where (has_id user_id)
             [User.set_reset_token None;
              User.set_reset_token_expires None;
              User.set_updated_at (Some now)]) ;;;
  get_user (Str.str user_id).

Definition update_password_with_reset (user_id : Z) (new_password : string)
    (now : Z) (salt : string) : io (option User.t) :=
  let hashed_password := auth.hash_password E new_password salt in
  execute (update_user_where (has_id user_id)
             [User.set_password hashed_password;
              User.set_reset_token None;
              User.set_reset_token_expires None;
              User.set_updated_at (Some now)]) ;;;
  get_user (Str.str user_id).

Definition set_email_verification_token (user_id : Z)
    (verification_token : string) (expires_at : Z) (now : Z)
  : io (option User.t) :=
  execute (update_user_where (has_id user_id)
             [User.set_email_verification_token (Some verification_token);
              User.set_email_verification_expires (Some expires_at);
              User.set_verification_sent_at (Some now);
              User.set_updated_at (Some now)]) ;;;
  get_user (Str.str user_id).

Definition get_user_by_verification_token (verification_token : string)
  : io (option User.t) :=
  query (first_user (has_verification_token verification_token)).

Definition verify_user_email (user_id : Z) (now : Z) : io (option User.t) :=
  execute (update_user_where (has_id user_id)
             [User.set_is_email_verified true;
              User.set_email_verification_token None;
              User.set_email_verification_expires None;
              User.set_updated_at (Some now)]) ;;;
  get_user (Str.str user_id).

Definition clear_email_verification_token (user_id : Z) (now : Z)
  : io (option User.t) :=
  execute (update_user_where (has_id user_id)
             [User.set_email_verification_token None;
              User.set_email_verification_expires None;
              User.set_updated_at (Some now)]) ;;;
  get_user (Str.str user_id).

Definition can_resend_verification (user_id : Z) (cooldown_minutes : Z)
    (now : Z) : io bool :=
  user <- get_user (Str.str user_id) ;;
  match user with
  | None => ret true
  | Some u =>
      match User.verification_sent_at u with
      | None => ret true
      | Some sent_at =>
          let time_since_last_send := now - sent_at in
          ret (time_since_last_send >? cooldown_minutes * 60)
      end
  end.

(** An optional argument of [update_user] in a condition: [None] and the
    empty string are false. *)
Definition assignment_of (v : option string) (set : string -> User.t -> User.t)
  : list (User.t -> User.t) :=
  match v with
  | Some given => if negb (String.eqb given "") then [set given] else []
  | None => []
  end.

(** The update of [update_user] fails on the unique column [email] when
    another row already stores the new address. *)
Definition update_user (user_id : Z) (name email mobile role password : option string)
    (now : Z) (salt : string) : io (option User.t) :=
  let update_data :=
    ([User.set_updated_at (Some now)]
       ++ assignment_of name User.set_name
       ++ assignment_of email User.set_email
       ++ assignment_of mobile User.set_mobile
       ++ assignment_of role User.set_role
       ++ assignment_of password
            (fun given => User.set_password (auth.hash_password E given salt)))%list
    in
  taken <- query (fun db =>
                    match email with
                    | Some given =>
                        negb (String.eqb given "")
                        && existsb (has_id user_id) (users db)
                        && existsb (fun u => has_email given u
                                             && negb (has_id user_id u))
                             (users db)
                    | None => false
                    end) ;;
  if taken then raise IntegrityError
  else
    execute (update_user_where (has_id user_id) update_data) ;;;
    get_user (Str.str user_id).

Definition get_blocked_users : io (list User.t) :=
  query (fun db =>
           filter (fun u => existsb (UserStatus_eqb (User.status u))
                              [BLOCKED; SUSPENDED])
             (users db)).

End WithEnv.

End UserDAL.

(** ** routers/auth_router.py *)

Module auth_router.

(** The request and response models.  A [validate] is what pydantic runs
    before the endpoint is entered; [None] stands for a rejected request. *)

Module UserRegister.

Record t : Type := mk {
  name : string;
  email : string;
  mobile : string;
  password : string
}.

Definition validate_name (v : string) : option string :=
  if Z.of_nat (String.length (Str.strip v)) <? 2 then None
  else if Z.of_nat (String.length (Str.strip v)) >? 100 then None
  else Some (Str.strip v).

Definition validate_email_field (v : string) : option string :=
  let (is_valid, message) := auth.validate_email v in
  if negb is_valid then None else Some (Str.strip (Str.lower v)).

Definition validate_mobile_field (v : string) : option string :=
  let (is_valid, message) := auth.validate_mobile v in
  if negb is_valid then None else Some (Str.strip v).

Definition validate_password_field (v : string) : option string :=
  let (is_valid, message) := auth.validate_password_strength v in
  if negb is_valid then None else Some v.

Definition validate (name email mobile password : string) : option t :=
  match validate_name name, validate_email_field email,
        validate_mobile_field mobile, validate_password_field password with
  | Some n, Some e, Some m, Some p => Some (mk n e m p)
  | _, _, _, _ => None
  end.

End UserRegister.

Module UserLogin.

Record t : Type := mk {
  email : string;
  password : string
}.

Definition validate_email_field (v : string) : string := Str.strip (Str.lower v).

Definition validate (email password : string) : t :=
  mk (validate_email_field email) password.

End UserLogin.

Record Token : Type := mkToken {
  access_token : Jose.token;
  token_type : string;
  expires_in : Z
}.

Record UserResponse : Type := mkUserResponse {
  id : Z;
  name : string;
  email : string;
  mobile : string;
  role : string;
  status : string;
  is_email_verified : bool;
  created_at : option Z;
  last_login : option Z
}.

(** The response model built from [to_dict]: the keys the model does not
    declare are dropped. *)
Definition UserResponse_of (d : User.dict) : UserResponse :=
  mkUserResponse (User.d_id d) (User.d_name d) (User.d_email d)
    (User.d_mobile d) (User.d_role d) (User.d_status d)
    (User.d_is_email_verified d) (User.d_created_at d) (User.d_last_login d).

Definition HTTP_400_BAD_REQUEST : Z := 400.
Definition HTTP_401_UNAUTHORIZED : Z := 401.
Definition HTTP_403_FORBIDDEN : Z := 403.
Definition HTTP_404_NOT_FOUND : Z := 404.
Definition HTTP_429_TOO_MANY_REQUESTS : Z := 429.
Definition HTTP_500_INTERNAL_SERVER_ERROR : Z := 500.

(** [str(v)] of a claim. *)
Definition str_of_claim (v : Jose.jval) : string :=
  match v with
  | Jose.JStr s => s
  | Jose.JInt n => Str.str n
  end.

(** The truth value of a claim in a condition. *)
Definition truthy (v : Jose.jval) : bool :=
  match v with
  | Jose.JStr s => negb (String.eqb s "")
  | Jose.JInt n => negb (n =? 0)
  end.

Section WithEnv.

Variable E : Env.

Definition register (user_data : UserRegister.t) (now : Z) (salt : string)
  : io UserResponse :=
  existing_user <- UserDAL.get_user_by_email (UserRegister.email user_data) ;;
  match existing_user with
  | Some _ =>
      raise (HTTPException HTTP_400_BAD_REQUEST "Email already registered")
  | None =>
      new_user <- UserDAL.create_user E
                    (UserRegister.name user_data)
                    (UserRegister.email user_data)
                    (UserRegister.mobile user_data)
                    (UserRegister.password user_data)
                    "user" now salt ;;
      commit ;;;
      ret (UserResponse_of (User.to_dict new_user))
  end.

Definition login (user_credentials : UserLogin.t)
    (ip user_agent : string) (now : Z) (token_id : string) : io Token :=
  user <- UserDAL.authenticate_user E (UserLogin.email user_credentials)
            (UserLogin.password user_credentials) now ;;
  match user with
  | None =>
      raise (HTTPException HTTP_401_UNAUTHORIZED "Incorrect email or password")
  | Some user =>
      if User.is_blocked user then
        raise (HTTPException HTTP_403_FORBIDDEN
                 ("Account is " ++ UserStatus_value (User.status user)
                  ++ ". Contact administrator for assistance."))
      else
        let access_token_expires := ACCESS_TOKEN_EXPIRE_MINUTES E * 60 in
        let (access_token, token_id) :=
          auth.create_access_token E
            [("sub", Jose.JStr (Str.str (User.id user)));
             ("email", Jose.JStr (User.email user));
             ("role", Jose.JStr (User.role user))]
            (Some access_token_expires) now token_id in
        UserDAL.create_session (User.id user) token_id
          (Some ip) (Some user_agent) now ;;;
        commit ;;;
        ret (mkToken access_token "bearer" (ACCESS_TOKEN_EXPIRE_MINUTES E * 60))
  end.

Definition get_current_user (token : Jose.token) (now : Z) : io User.t :=
  payload <- call (auth.verify_token E token now) ;;
  match payload with
  | None =>
      raise (HTTPException HTTP_401_UNAUTHORIZED
               "Invalid authentication credentials")
  | Some payload =>
      let user_id := Jose.dict_get "sub" payload in
      let token_id := Jose.dict_get "jti" payload in
      match user_id, token_id with
      | Some user_id, Some token_id =>
          user <- UserDAL.get_user (str_of_claim user_id) ;;
          match user with
          | None =>
              raise (HTTPException HTTP_401_UNAUTHORIZED "User not found")
          | Some user =>
              if User.is_blocked user then
                raise (HTTPException HTTP_403_FORBIDDEN
                         ("Account is " ++ UserStatus_value (User.status user)
                          ++ ". Contact administrator."))
              else ret user
          end
      | _, _ =>
          raise (HTTPException HTTP_401_UNAUTHORIZED "Invalid token format")
      end
  end.

(** [logout] depends on [get_current_user], which runs first. *)
Definition logout (token : Jose.token) (now : Z) : io string :=
  current_user <- get_current_user token now ;;
  payload <- call (auth.verify_token E token now) ;;
  match payload with
  | Some payload =>
      match Jose.dict_get "jti" payload with
      | Some jti =>
          if truthy jti then
            match jti with
            | Jose.JStr token_id => UserDAL.end_session token_id now
            | Jose.JInt _ => raise ProgrammingError
            end ;;;
            commit ;;;
            ret "Successfully logged out"
          else ret "Successfully logged out"
      | None => ret "Successfully logged out"
      end
  | None => ret "Successfully logged out"
  end.

Definition get_current_user_info (token : Jose.token) (now : Z)
  : io UserResponse :=
  current_user <- get_current_user token now ;;
  ret (UserResponse_of (User.to_dict current_user)).

Definition require_admin (token : Jose.token) (now : Z) : io User.t :=
  current_user <- get_current_user token now ;;
  if negb (String.eqb (User.role current_user) "admin") then
    raise (HTTPException HTTP_403_FORBIDDEN "Admin access required")
  else if negb (User.is_active current_user) then
    raise (HTTPException HTTP_403_FORBIDDEN "Admin account is not active")
  else ret current_user.

End WithEnv.

End auth_router.

(** ** routers/admin_router.py

    The endpoints receive [current_user], the administrator that
    [require_admin] returned. *)

Module admin_router.

Import auth_router.

Record BlockUserRequest : Type := mkBlockUserRequest {
  reason : option string
}.

(** The body of a successful status change: the message and the user, whose
    [UserStatusResponse] has the keys of [to_dict]. *)
Definition status_change : Type := (string * User.dict)%type.

Definition response_of (message : string) (updated_user : option User.t)
  : io status_change :=
  match updated_user with
  | Some u => ret (message, User.to_dict u)
  | None => raise AttributeError
  end.

Section WithEnv.

Variable E : Env.

Definition block_user (user_id : Z) (request_data : BlockUserRequest)
    (current_user : User.t) (now : Z) : io status_change :=
  target_user <- UserDAL.get_user (Str.str user_id) ;;
  match target_user with
  | None => raise (HTTPException HTTP_404_NOT_FOUND "User not found")
  | Some target_user =>
      if User.id target_user =? User.id current_user then
        raise (HTTPException HTTP_400_BAD_REQUEST "Cannot block yourself")
      else if String.eqb (User.role target_user) "admin" then
        raise (HTTPException HTTP_400_BAD_REQUEST
                 "Cannot block other administrators")
      else
        updated_user <- UserDAL.block_user user_id (User.id current_user)
                          (reason request_data) now ;;
        commit ;;;
        response_of ("User " ++ User.name target_user ++ " has been blocked")
          updated_user
  end.

Definition unblock_user (user_id : Z) (current_user : User.t) (now : Z)
  : io status_change :=
  target_user <- UserDAL.get_user (Str.str user_id) ;;
  match target_user with
  | None => raise (HTTPException HTTP_404_NOT_FOUND "User not found")
  | Some target_user =>
      updated_user <- UserDAL.unblock_user user_id now ;;
      commit ;;;
      response_of ("User " ++ User.name target_user ++ " has been unblocked")
        updated_user
  end.

Definition suspend_user (user_id : Z) (request_data : BlockUserRequest)
    (current_user : User.t) (now : Z) : io status_change :=
  target_user <- UserDAL.get_user (Str.str user_id) ;;
  match target_user with
  | None => raise (HTTPException HTTP_404_NOT_FOUND "User not found")
  | Some target_user =>
      if User.id target_user =? User.id current_user then
        raise (HTTPException HTTP_400_BAD_REQUEST "Cannot suspend yourself")
      else
        updated_user <- UserDAL.suspend_user user_id (User.id current_user)
                          (reason request_data) now ;;
        commit ;;;
        response_of ("User " ++ User.name target_user ++ " has been suspended")
          updated_user
  end.

Definition change_user_role (user_id : Z) (new_role : string)
    (current_user : User.t) (now : Z) (salt : string) : io status_change :=
  if negb (existsb (String.eqb new_role) ["user"; "admin"]) then
    raise (HTTPException HTTP_400_BAD_REQUEST "Role must be 'user' or 'admin'")
  else
    target_user <- UserDAL.get_user (Str.str user_id) ;;
    match target_user with
    | None => raise (HTTPException HTTP_404_NOT_FOUND "User not found")
    | Some target_user =>
        updated_user <- UserDAL.update_user E user_id None None None
                          (Some new_role) None now salt ;;
        commit ;;;
        response_of ("User " ++ User.name target_user ++ " role changed to "
                     ++ new_role) updated_user
    end.

(** [for session_obj in sessions: await user_dal.end_session(...)] *)
Fixpoint end_each (sessions : list UserSession.t) (now : Z) : io unit :=
  match sessions with
  | [] => ret tt
  | session_obj :: rest =>
      UserDAL.end_session (UserSession.token_id session_obj) now ;;;
      end_each rest now
  end.

(** The answer of [logout_all_user_sessions]: the message and
    [sessions_ended]. *)
Definition logout_all_user_sessions (user_id : Z) (current_user : User.t)
    (now : Z) : io (string * Z) :=
  target_user <- UserDAL.get_user (Str.str user_id) ;;
  match target_user with
  | None => raise (HTTPException HTTP_404_NOT_FOUND "User not found")
  | Some target_user =>
      sessions <- UserDAL.get_active_sessions user_id ;;
      end_each sessions now ;;;
      commit ;;;
      ret ("All sessions for user " ++ User.name target_user
           ++ " have been terminated",
           Z.of_nat (List.length sessions))
  end.

End WithEnv.

End admin_router.

(** ** routers/password_reset.py *)

Module password_reset.

Import auth_router.

Module ForgotPasswordRequest.

Definition validate_email (v : string) : option string :=
  if negb (Re.match_anchored auth.email_pattern v) then None
  else Some (Str.lower v).

End ForgotPasswordRequest.

Record PasswordResetResponse : Type := mkPasswordResetResponse {
  message : string;
  success : bool
}.

Definition is_token_expired (expires_at : option Z) (now : Z) : bool :=
  match expires_at with
  | None => true
  | Some expires_at => now >? expires_at
  end.

(** The mail is printed, not sent, and the answer is always [True]. *)
Definition send_reset_email (email token : string) : bool := true.

Section WithEnv.

Variable E : Env.

Definition hash_token (token : string) : string := sha256_hexdigest E token.

Definition forgot_password (email : string) (now : Z) (reset_token : string)
  : io PasswordResetResponse :=
  try_except
    (user <- UserDAL.get_user_by_email email ;;
     match user with
     | None =>
         ret (mkPasswordResetResponse
                "If the email exists, a reset link has been sent." true)
     | Some user =>
         if negb (UserStatus_eqb (User.status user) ACTIVE) then
           ret (mkPasswordResetResponse
                  "Account is not active. Please contact support." false)
         else
           let hashed_token := hash_token reset_token in
           let expires_at := now + 3600 in
           UserDAL.set_password_reset_token (User.id user) hashed_token
             expires_at now ;;;
           commit ;;;
           let email_sent := send_reset_email (User.email user) reset_token in
           if negb email_sent then
             raise (HTTPException HTTP_500_INTERNAL_SERVER_ERROR
                      "Failed to send reset email")
           else
             ret (mkPasswordResetResponse
                    "If the email exists, a reset link has been sent." true)
     end)
    (fun e =>
       rollback ;;;
       raise (HTTPException HTTP_500_INTERNAL_SERVER_ERROR
                "An error occurred while processing your request")).

Definition reset_password (token new_password : string) (now : Z)
    (salt : string) : io PasswordResetResponse :=
  try_except
    (let (is_valid, message) := auth.validate_password_strength new_password in
     if negb is_valid then raise (HTTPException HTTP_400_BAD_REQUEST message)
     else
       let hashed_token := hash_token token in
       user <- UserDAL.get_user_by_reset_token hashed_token ;;
       match user with
       | None =>
           raise (HTTPException HTTP_400_BAD_REQUEST
                    "Invalid or expired reset token")
       | Some user =>
           if is_token_expired (User.reset_token_expires user) now then
             UserDAL.clear_password_reset_token (User.id user) now ;;;
             commit ;;;
             raise (HTTPException HTTP_400_BAD_REQUEST
                      "Reset token has expired. Please request a new one.")
           else
             UserDAL.update_password_with_reset E (User.id user) new_password
               now salt ;;;
             commit ;;;
             ret (mkPasswordResetResponse
                    "Password has been reset successfully. You can now login with your new password."
                    true)
       end)
    (fun e =>
       match e with
       | HTTPException _ _ => rollback ;;; raise e
       | _ =>
           rollback ;;;
           raise (HTTPException HTTP_500_INTERNAL_SERVER_ERROR
                    "An error occurred while resetting your password")
       end).

End WithEnv.

End password_reset.

(** ** routers/email_verification.py *)

Module email_verification.

Import auth_router.

Module ResendVerificationRequest.

Definition validate_email (v : string) : option string :=
  if negb (Re.match_anchored auth.email_pattern v) then None
  else Some (Str.lower v).

End ResendVerificationRequest.

Record EmailVerificationResponse : Type := mkEmailVerificationResponse {
  message : string;
  success : bool;
  is_verified : option bool
}.

Definition is_token_expired (expires_at : option Z) (now : Z) : bool :=
  match expires_at with
  | None => true
  | Some expires_at => now >? expires_at
  end.

(** The mail is printed, not sent, and the answer is always [True]. *)
Definition send_verification_email (email name token : string) : bool := true.

Section WithEnv.

Variable E : Env.

Definition hash_token (token : string) : string := sha256_hexdigest E token.

Definition verify_email (token : string) (now : Z)
  : io EmailVerificationResponse :=
  try_except
    (let hashed_token := hash_token token in
     user <- UserDAL.get_user_by_verification_token hashed_token ;;
     match user with
     | None =>
         raise (HTTPException HTTP_400_BAD_REQUEST
                  "Invalid or expired verification token")
     | Some user =>
         if User.is_email_verified user then
           ret (mkEmailVerificationResponse "Email is already verified."
                  true (Some true))
         else if is_token_expired (User.email_verification_expires user) now
         then
           UserDAL.clear_email_verification_token (User.id user) now ;;;
           commit ;;;
           raise (HTTPException HTTP_400_BAD_REQUEST
                    "Verification token has expired. Please request a new one.")
         else
           UserDAL.verify_user_email (User.id user) now ;;;
           commit ;;;
           ret (mkEmailVerificationResponse
                  "Email verified successfully! Your account is now fully activated."
                  true (Some true))
     end)
    (fun e =>
       match e with
       | HTTPException _ _ => raise e
       | _ =>
           raise (HTTPException HTTP_500_INTERNAL_SERVER_ERROR
                    "An error occurred while verifying your email")
       end).

Definition resend_verification (email : string) (now : Z)
    (verification_token : string) : io EmailVerificationResponse :=
  try_except
    (user <- UserDAL.get_user_by_email email ;;
     match user with
     | None =>
         ret (mkEmailVerificationResponse
                "If the email exists and is unverified, a verification link has been sent."
                true None)
     | Some user =>
         if User.is_email_verified user then
           ret (mkEmailVerificationResponse "Email is already verified."
                  true (Some true))
         else
           can_resend <- UserDAL.can_resend_verification (User.id user) 5 now ;;
           if negb can_resend then
             raise (HTTPException HTTP_429_TOO_MANY_REQUESTS
                      "Please wait 5 minutes before requesting another verification email.")
           else
             let hashed_token := hash_token verification_token in
             let expires_at := now + 86400 in
             UserDAL.set_email_verification_token (User.id user) hashed_token
               expires_at now ;;;
             commit ;;;
             let email_sent :=
               send_verification_email (User.email user) (User.name user)
                 verification_token in
             if negb email_sent then
               raise (HTTPException HTTP_500_INTERNAL_SERVER_ERROR
                        "Failed to send verification email")
             else
               ret (mkEmailVerificationResponse
                      "Verification email sent successfully. Please check your inbox."
                      true (Some false))
     end)
    (fun e =>
       match e with
       | HTTPException _ _ => raise e
       | _ =>
           raise (HTTPException HTTP_500_INTERNAL_SERVER_ERROR
                    "An error occurred while sending verification email")
       end).

End WithEnv.

End email_verification.

(** ** A concrete deployment, to run the service on

    The stand-ins for bcrypt and SHA-256 only tag their input: they are
    enough to execute the operations, and no property below relies on
    them. *)

Module Demo.

Definition env : Env :=
  mkEnv "not-a-real-secret" "HS256" 30
    (fun password salt => "$2b$" ++ salt ++ "$" ++ password)
    (fun plain hashed =>
       String.eqb
         (substring (String.length hashed - String.length plain - 1)
            (String.length plain + 1) hashed)
         ("$" ++ plain))
    (fun s => "sha256:" ++ s).

Definition account (id : Z) (name email role password : string)
    (status : UserStatus) (verified : bool) : User.t :=
  User.mk id name email "12345678" role (bcrypt_hash env password "salt")
    status verified (Some 0) (Some 0) None None None None None None
    None None None.

Definition alice : User.t :=
  account 1 "Alice" "alice@x.com" "user" "Sw0rd!abc" ACTIVE false.
Definition bob : User.t :=
  User.values
    [User.set_blocked_at (Some 50); User.set_blocked_by (Some 3);
     User.set_blocked_reason (Some "test")]
    (account 2 "Bob" "bob@x.com" "user" "Hunter2!x" BLOCKED false).
Definition root : User.t :=
  account 3 "Root" "root@x.com" "admin" "R00t!pass" ACTIVE true.
Definition carol : User.t :=
  account 4 "Carol" "carol@x.com" "admin" "C4rol!pass" ACTIVE true.

Definition db : Tables := mkTables [alice; bob; root; carol] [] 4 0.

(** Alice with a reset token outstanding until the instant 5000. *)
Definition alice_reset : User.t :=
  User.values
    [User.set_reset_token (Some (sha256_hexdigest env "raw-reset-token"));
     User.set_reset_token_expires (Some 5000)]
    alice.

Definition db_reset : Tables := mkTables [alice_reset; bob; root; carol] [] 4 0.

(** Root, verified, with a verification token that lapsed at the instant
    10. *)
Definition root_token : User.t :=
  User.values
    [User.set_email_verification_token
       (Some (sha256_hexdigest env "raw-verify-token"));
     User.set_email_verification_expires (Some 10);
     User.set_verification_sent_at (Some 5)]
    root.

Definition db_verified : Tables := mkTables [alice; bob; root_token; carol] [] 4 0.

(** An account whose address was stored with a capital letter. *)
Definition alice_capital : User.t :=
  account 1 "Alice" "Alice@x.com" "user" "Sw0rd!abc" ACTIVE false.

Definition db_capital : Tables := mkTables [alice_capital] [] 1 0.

End Demo.
(** ** The constraints of the schema

    [id] is the primary key of [user], drawn from the table's sequence, and
    [email] is declared unique. *)

Module Schema.

Definition keys_unique (db : Tables) : Prop := NoDup (map User.id (users db)).

Definition keys_issued (db : Tables) : Prop :=
  forall u, In u (users db) -> User.id u <= user_id_seq db.

Definition emails_unique (db : Tables) : Prop :=
  NoDup (map User.email (users db)).

Definition holds (db : Tables) : Prop :=
  keys_unique db /\ keys_issued db /\ emails_unique db.

(** An address in the form the request models give it. *)
Definition normalised (email : string) : Prop :=
  Str.strip (Str.lower email) = email.

Definition emails_normalised (db : Tables) : Prop :=
  forall u, In u (users db) -> normalised (User.email u).

(** The row that [end_session] writes over a session at [now], and the
    condition of [get_active_sessions]. *)
Definition closed (now : Z) (r : UserSession.t) : UserSession.t :=
  UserSession.mk (UserSession.id r) (UserSession.user_id r)
    (UserSession.token_id r) (UserSession.login_time r) (Some now)
    (UserSession.ip_address r) (UserSession.user_agent r) false.

Definition open_for (user_id : Z) (r : UserSession.t) : bool :=
  (UserSession.user_id r =? user_id) && Bool.eqb (UserSession.is_active r) true.

(** The sessions that the loop of [logout_all_user_sessions] closes: those
    whose token is the token of a session of the list. *)
Definition closes (sessions : list UserSession.t) (r : UserSession.t) : bool :=
  existsb (fun x => String.eqb (UserSession.token_id r) (UserSession.token_id x))
    sessions.

End Schema.

(** ** Tokens and sessions to run the service on *)

Module Scenario.

Definition token_of (u : User.t) (now : Z) (token_id : string) : Jose.token :=
  fst (auth.create_access_token Demo.env
         [("sub", Jose.JStr (Str.str (User.id u)));
          ("email", Jose.JStr (User.email u));
          ("role", Jose.JStr (User.role u))]
         (Some 1800) now token_id).

(** Tokens issued at the instant 1000: they expire at 2800. *)
Definition alice_token : Jose.token := token_of Demo.alice 1000 "tid-1".
Definition bob_token : Jose.token := token_of Demo.bob 1000 "tid-2".
Definition root_token : Jose.token := token_of Demo.root 1000 "tid-3".

Definition session (id user_id : Z) (token_id : string) (active : bool)
  : UserSession.t :=
  UserSession.mk id user_id token_id (Some 1000)
    (if active then None else Some 1500) (Some "10.0.0.1") (Some "curl") active.

(** Alice holds two open sessions and a closed one, Root an open one. *)
Definition db_sessions : Tables :=
  mkTables [Demo.alice; Demo.bob; Demo.root; Demo.carol]
    [session 1 1 "tid-1" true; session 2 3 "tid-3" true;
     session 3 1 "tid-4" true; session 4 1 "tid-5" false]
    4 4.

(** Alice, not verified, with a verification token sent at the instant
    3600 and valid until 90000. *)
Definition alice_pending : User.t :=
  User.values
    [User.set_email_verification_token
       (Some (sha256_hexdigest Demo.env "raw-verify-token"));
     User.set_email_verification_expires (Some 90000);
     User.set_verification_sent_at (Some 3600)]
    Demo.alice.

Definition db_pending : Tables :=
  mkTables [alice_pending; Demo.bob; Demo.root; Demo.carol] [] 4 0.

End Scenario.

(** ** The addresses that [validate_email] accepts, in words *)

Module Address.

(** Every character of [s] belongs to the class. *)
Fixpoint all_in (cls : ascii -> bool) (s : string) : bool :=
  match s with
  | EmptyString => true
  | String c rest => cls c && all_in cls rest
  end.

(** Letters and digits and [._%+-]; letters, digits, dot and dash;
    letters. *)
Definition local_char (c : ascii) : bool :=
  auth.cls_alnum c || auth.mem_ascii c "._%+-".
Definition domain_char (c : ascii) : bool :=
  auth.cls_alnum c || auth.mem_ascii c ".-".
Definition letter (c : ascii) : bool := auth.cls_upper c || auth.cls_lower c.

(** [local@domain.tld]: a local part and a domain that are not empty, and
    at least two letters after the last dot. *)
Definition well_formed (e : string) : Prop :=
  exists local domain tld,
    e = local ++ "@" ++ domain ++ "." ++ tld
    /\ local <> "" /\ all_in local_char local = true
    /\ domain <> "" /\ all_in domain_char domain = true
    /\ (2 <= String.length tld)%nat /\ all_in letter tld = true.

End Address.

(** ** Running the coroutines *)

Module Run.

#[global] Arguments UserDAL.update_user_where : simpl never.
#[global] Arguments UserDAL.first_user : simpl never.

Ltac run :=
  unfold serve, try_except, bind, ret, raise, call, query, execute, commit,
    rollback;
  simpl.

Ltac user_row := intros [? ? ? ? ? ? ? ? ? ? ? ? ? ? ? ? ? ? ?]; reflexivity.

Lemma to_int_proper (n : Z) :
  Z.to_int n <> Decimal.Pos Decimal.Nil /\ Z.to_int n <> Decimal.Neg Decimal.Nil.
Proof.
  destruct n as [|p|p]; simpl; split; try discriminate;
    intros H; injection H as H; now apply DecimalPos.Unsigned.to_uint_nonnil in H.
Qed.

(** [int(str(n))] is [n]. *)
Lemma int_str (n : Z) : Str.int (Str.str n) = Some n.
Proof.
  unfold Str.int, Str.str.
  destruct (to_int_proper n) as [Hp Hn].
  rewrite (NilZero.isi _ Hp Hn). simpl. now rewrite DecimalZ.of_to.
Qed.

Lemma get_user_str (n : Z) (s : AsyncSession) :
  UserDAL.get_user (Str.str n) s
  = (Return (UserDAL.first_user (UserDAL.has_id n) (pending s)), s).
Proof. unfold UserDAL.get_user. now rewrite int_str. Qed.

Lemma has_id_self (u : User.t) : UserDAL.has_id (User.id u) u = true.
Proof. apply Z.eqb_refl. Qed.

(** A select whose condition the assignments of an update leave alone
    finds the same row, updated. *)
Lemma find_map_stable {A : Type} (p : A -> bool) (f : A -> A) (l : list A) :
  (forall x, p (f x) = p x) ->
  find p (map f l) = option_map f (find p l).
Proof.
  intros Hp. induction l as [|x l IH]; simpl; [reflexivity |].
  rewrite Hp. destruct (p x); [reflexivity | exact IH].
Qed.

Lemma find_none_map {A : Type} (p : A -> bool) (f : A -> A) (l : list A) :
  (forall x, In x l -> p (f x) = false) ->
  find p (map f l) = None.
Proof.
  intros Hp. induction l as [|x l IH]; simpl; [reflexivity |].
  rewrite (Hp x (or_introl eq_refl)). apply IH. intros y Hy. apply Hp. now right.
Qed.

Lemma first_user_none (p : User.t -> bool) (db : Tables) :
  UserDAL.first_user p db = None <-> existsb p (users db) = false.
Proof.
  unfold UserDAL.first_user. induction (users db) as [|x l IH]; simpl.
  - tauto.
  - destruct (p x); simpl; [split; discriminate | exact IH].
Qed.

Lemma first_user_update_stable (p : User.t -> bool) (n : Z)
    (assignments : list (User.t -> User.t)) (db : Tables) :
  (forall x, p (User.values assignments x) = p x) ->
  UserDAL.first_user p
    (UserDAL.update_user_where (UserDAL.has_id n) assignments db)
  = option_map
      (fun u => if UserDAL.has_id n u then User.values assignments u else u)
      (UserDAL.first_user p db).
Proof.
  intros Hp. unfold UserDAL.first_user, UserDAL.update_user_where. simpl.
  apply find_map_stable. intros x. destruct (UserDAL.has_id n x); auto.
Qed.

(** The rows an update reaches are the old rows with the assignments
    applied. *)
Lemma updated_rows (n : Z) (assignments : list (User.t -> User.t))
    (db : Tables) (x : User.t) :
  In x (users (UserDAL.update_user_where (UserDAL.has_id n) assignments db)) ->
  User.id x = n ->
  (forall y, User.id (User.values assignments y) = User.id y) ->
  exists y, In y (users db) /\ x = User.values assignments y.
Proof.
  unfold UserDAL.update_user_where. simpl. intros Hin Hid Hkeep.
  apply in_map_iff in Hin as (y & Hy & Hin). exists y. split; [exact Hin |].
  destruct (UserDAL.has_id n y) eqn:Hn; [now symmetry |].
  subst x. unfold UserDAL.has_id in Hn. apply Z.eqb_neq in Hn. contradiction.
Qed.


(** Two members of a list that holds at most one element are the same. *)
Lemma at_most_one {A : Type} (l : list A) (x y : A) :
  (length l <= 1)%nat -> In x l -> In y l -> x = y.
Proof.
  destruct l as [|a [|b l]]; simpl; intros Hlen Hx Hy.
  - contradiction.
  - destruct Hx as [<- | []], Hy as [<- | []]. reflexivity.
  - lia.
Qed.

End Run.

(** ** Properties of the password policy *)

Module PolicyFacts.
Import auth.










End PolicyFacts.

(** ** Bearer tokens (utils/auth.py) *)

Module TokenFacts.
Import Run.










End TokenFacts.

(** ** Sessions and login (routers/auth_router.py) *)

Module AuthFacts.
Import Run.
Import auth_router.

(** [get_current_user] reads the [user] table only. *)
Lemma get_current_user_reads_users (E : Env) (token : Jose.token) (now : Z)
    (db db' : Tables) :
  users db = users db' ->
  fst (serve (get_current_user E token now) db)
  = fst (serve (get_current_user E token now) db').
Proof.
  intros Husers. unfold get_current_user, serve, bind, call.
  destruct (auth.verify_token E token now) as [[payload|]|e];
    [| reflexivity | reflexivity].
  destruct (Jose.dict_get "sub" payload) as [user_id|]; [| reflexivity].
  destruct (Jose.dict_get "jti" payload) as [token_id|]; [| reflexivity].
  unfold UserDAL.get_user.
  destruct (Str.int (str_of_claim user_id)) as [n|]; [| reflexivity].
  run. unfold UserDAL.first_user. rewrite Husers.
  destruct (find (UserDAL.has_id n) (users db')) as [u|]; [| reflexivity].
  simpl. now destruct (User.is_blocked u).
Qed.

(** Closing a session changes nothing in what [get_current_user] answers. *)
Lemma end_session_keeps_authentication (E : Env) (token : Jose.token)
    (now closed_at : Z) (token_id : string) (db : Tables) :
  fst (serve (get_current_user E token now)
         (snd (serve (UserDAL.end_session token_id closed_at ;;; commit) db)))
  = fst (serve (get_current_user E token now) db).
Proof. apply get_current_user_reads_users. reflexivity. Qed.

(** C1, on the code.  Alice logs in at the instant 1000 and logs out at
    1060, which closes the session of her token; at 1120, before the token
    expires at 2800, [get_current_user] still returns Alice for that
    token. *)
Theorem logout_leaves_token_valid :
  exists granted db1 db2,
    serve (login Demo.env (UserLogin.validate "alice@x.com" "Sw0rd!abc")
             "10.0.0.1" "curl" 1000 "tid-1") Demo.db
    = (Return granted, db1)
    /\ access_token granted
       = Jose.Signed "HS256" (SECRET_KEY Demo.env)
           [("sub", Jose.JStr "1"); ("email", Jose.JStr "alice@x.com");
            ("role", Jose.JStr "user"); ("exp", Jose.JInt 2800);
            ("iat", Jose.JInt 1000); ("jti", Jose.JStr "tid-1")]
    /\ serve (logout Demo.env (access_token granted) 1060) db1
       = (Return "Successfully logged out", db2)
    /\ map (fun r => (UserSession.token_id r, UserSession.is_active r,
                      UserSession.logout_time r)) (user_sessions db2)
       = [("tid-1", false, Some 1060)]
    /\ serve (get_current_user Demo.env (access_token granted) 1120) db2
       = (Return (User.set_last_login (Some 1000) Demo.alice), db2).
Proof.
  do 3 eexists. split; [vm_compute; reflexivity |].
  split; [reflexivity |]. split; [vm_compute; reflexivity |].
  split; reflexivity.
Qed.

(** [authenticate_user] returns active accounts only. *)
Lemma authenticate_user_active (E : Env) (email password : string) (now : Z)
    (s s' : AsyncSession) (u : User.t) :
  UserDAL.authenticate_user E email password now s = (Return (Some u), s') ->
  User.is_active u = true.
Proof.
  unfold UserDAL.authenticate_user, UserDAL.get_user_by_email. run.
  destruct (UserDAL.first_user _ (pending s)) as [v|]; simpl; [| discriminate].
  destruct (User.is_active v) eqn:Hactive; simpl; [| discriminate].
  destruct (auth.verify_password E password (User.password v)); simpl;
    [| discriminate].
  unfold UserDAL.update_last_login. run. intros H. injection H as <- _.
  exact Hactive.
Qed.

Lemma active_not_blocked (u : User.t) :
  User.is_active u = true -> User.is_blocked u = false.
Proof.
  unfold User.is_active, User.is_blocked. now destruct (User.status u).
Qed.

(** The 403 branch of [login] is never taken. *)
Lemma login_never_forbidden (E : Env) (user_credentials : UserLogin.t)
    (ip user_agent : string) (now : Z) (token_id : string) (db : Tables)
    (detail : string) :
  fst (serve (login E user_credentials ip user_agent now token_id) db)
  <> Raise (HTTPException 403 detail).
Proof.
  unfold serve, login, bind.
  destruct (UserDAL.authenticate_user E (UserLogin.email user_credentials)
              (UserLogin.password user_credentials) now (mkSession db db))
    as [[[u|]|e] s'] eqn:Hauth; simpl.
  - apply authenticate_user_active in Hauth as Hactive.
    rewrite (active_not_blocked u Hactive). simpl.
    unfold UserDAL.create_session.
    destruct (existsb _ (user_sessions (pending s'))); simpl; discriminate.
  - discriminate.
  - revert Hauth.
    unfold UserDAL.authenticate_user, UserDAL.get_user_by_email. run.
    destruct (UserDAL.first_user _ db) as [v|]; simpl; [| discriminate].
    destruct (User.is_active v && _); simpl; [| discriminate].
    unfold UserDAL.update_last_login. run. discriminate.
Qed.

(** An account that is not active is refused like a wrong password,
    whatever the password. *)
Lemma login_inactive_account (E : Env) (user_credentials : UserLogin.t)
    (ip user_agent : string) (now : Z) (token_id : string) (db : Tables)
    (u : User.t) :
  UserDAL.first_user (UserDAL.has_email (UserLogin.email user_credentials)) db
  = Some u ->
  User.is_active u = false ->
  serve (login E user_credentials ip user_agent now token_id) db
  = (Raise (HTTPException 401 "Incorrect email or password"), db).
Proof.
  intros Hu Hinactive.
  unfold login, UserDAL.authenticate_user, UserDAL.get_user_by_email. run.
  rewrite Hu. simpl. rewrite Hinactive. reflexivity.
Qed.

(** C2, on the code.  Bob's account is blocked; a login with his address and
    his correct password is answered 401 with the message of a wrong
    password, not 403 with his status. *)
Theorem login_blocked_account_generic_error :
  User.status Demo.bob = BLOCKED
  /\ auth.verify_password Demo.env "Hunter2!x" (User.password Demo.bob) = true
  /\ serve (login Demo.env (UserLogin.validate "bob@x.com" "Hunter2!x")
              "10.0.0.1" "curl" 1000 "tid-2") Demo.db
     = (Raise (HTTPException 401 "Incorrect email or password"), Demo.db).
Proof. repeat split. Qed.

End AuthFacts.

(** ** Registration (routers/auth_router.py) *)

Module RegisterFacts.
Import Run.
Import auth_router.

(** A request that pydantic accepts reaches [register] with its address in
    lower case and stripped, and its password as sent. *)
Lemma validate_normalises_email (name email mobile password : string)
    (user_data : UserRegister.t) :
  UserRegister.validate name email mobile password = Some user_data ->
  UserRegister.email user_data = Str.strip (Str.lower email)
  /\ UserRegister.password user_data = password.
Proof.
  unfold UserRegister.validate, UserRegister.validate_email_field,
    UserRegister.validate_password_field.
  destruct (UserRegister.validate_name name); [| discriminate].
  destruct (auth.validate_email email) as [[|] ?]; simpl; [| discriminate].
  destruct (UserRegister.validate_mobile_field mobile); [| discriminate].
  destruct (auth.validate_password_strength password) as [[|] ?]; simpl;
    [| discriminate].
  intros H. injection H as <-. split; reflexivity.
Qed.

(** C8, as the code has it.  The address of an accepted request is put in
    lower case and stripped, and compared for equality with the stored
    addresses.  When an account stores that normalised address, [register]
    fails with 400 "Email already registered" and stores nothing; when none
    does, it stores one new account, with the normalised address, status
    active, the e-mail flag false, role user and the bcrypt hash of the
    password.  So against an account whose address is stored in normalised
    form the comparison does not see the case of the request. *)
Theorem register_conflict_on_normalised_email (E : Env) (db : Tables)
    (name email mobile password salt : string) (now : Z)
    (user_data : UserRegister.t) :
  UserRegister.validate name email mobile password = Some user_data ->
  let normalised := Str.strip (Str.lower email) in
  ((exists u, In u (users db) /\ User.email u = normalised) ->
   serve (register E user_data now salt) db
   = (Raise (HTTPException 400 "Email already registered"), db))
  /\ ((forall u, In u (users db) -> User.email u <> normalised) ->
      exists new_user,
        serve (register E user_data now salt) db
        = (Return (UserResponse_of (User.to_dict new_user)),
           mkTables (users db ++ [new_user]) (user_sessions db)
             (user_id_seq db + 1) (session_id_seq db))
        /\ User.email new_user = normalised
        /\ User.status new_user = ACTIVE
        /\ User.is_email_verified new_user = false
        /\ User.role new_user = "user"
        /\ User.password new_user = auth.hash_password E password salt)
  /\ (forall u,
        In u (users db) ->
        User.email u = Str.strip (Str.lower (User.email u)) ->
        Str.strip (Str.lower (User.email u)) = normalised ->
        serve (register E user_data now salt) db
        = (Raise (HTTPException 400 "Email already registered"), db)).
Proof.
  intros Hvalid normalised.
  destruct (validate_normalises_email _ _ _ _ _ Hvalid) as [Hemail Hpw].
  fold normalised in Hemail.
  assert (Hconflict :
    (exists u, In u (users db) /\ User.email u = normalised) ->
    serve (register E user_data now salt) db
    = (Raise (HTTPException 400 "Email already registered"), db));
    [| split; [exact Hconflict | split;
         [| intros u Hin Hstored Hsame; apply Hconflict; exists u;
            split; [exact Hin | congruence]]]].
  - intros (u & Hin & Hu).
    unfold register, UserDAL.get_user_by_email. run. rewrite Hemail.
    destruct (UserDAL.first_user (UserDAL.has_email normalised) db) eqn:Hf;
      [reflexivity |].
    exfalso. unfold UserDAL.first_user in Hf.
    apply (find_none _ _ Hf) in Hin. unfold UserDAL.has_email in Hin.
    rewrite Hu, String.eqb_refl in Hin. discriminate.
  - intros Hfree.
    assert (Hnone : existsb (UserDAL.has_email normalised) (users db) = false).
    { apply not_true_is_false. intros H.
      apply existsb_exists in H as (u & Hin & Hu).
      apply (Hfree u Hin). now apply String.eqb_eq. }
    unfold register, UserDAL.get_user_by_email. run. rewrite Hemail.
    rewrite (proj2 (first_user_none _ _) Hnone).
    unfold UserDAL.create_user, UserDAL.insert_user. simpl. rewrite Hnone.
    eexists. split; [reflexivity |]. simpl. rewrite Hpw. repeat split.
Qed.

(** The theorem at a second registration of Alice's address, sent in
    capitals. *)
Lemma register_conflict_on_normalised_email_witness :
  UserRegister.validate "Alice" "ALICE@X.COM" "12345678" "Sw0rd!abc"
  = Some (UserRegister.mk "Alice" "alice@x.com" "12345678" "Sw0rd!abc")
  /\ In Demo.alice (users Demo.db)
  /\ serve (register Demo.env
              (UserRegister.mk "Alice" "alice@x.com" "12345678" "Sw0rd!abc")
              100 "salt") Demo.db
     = (Raise (HTTPException 400 "Email already registered"), Demo.db).
Proof.
  split; [reflexivity | split; [left; reflexivity |]].
  apply (proj1 (register_conflict_on_normalised_email Demo.env Demo.db
                  "Alice" "ALICE@X.COM" "12345678" "Sw0rd!abc" "salt" 100
                  (UserRegister.mk "Alice" "alice@x.com" "12345678" "Sw0rd!abc")
                  eq_refl)).
  exists Demo.alice. split; [left; reflexivity | reflexivity].
Defined.

(** C8 fails when the stored address is not in lower case.  The table holds
    an account with the address Alice@x.com; a registration with
    alice@x.com, the same address but for the case of one letter, is
    accepted and a second account is stored. *)
Lemma register_accepts_case_variant :
  map User.email (users Demo.db_capital) = ["Alice@x.com"]
  /\ Str.lower "Alice@x.com" = Str.lower "alice@x.com"
  /\ exists user_data response db1,
       UserRegister.validate "Alice" "alice@x.com" "12345678" "Sw0rd!abc"
       = Some user_data
       /\ serve (register Demo.env user_data 100 "salt") Demo.db_capital
          = (Return response, db1)
       /\ map User.email (users db1) = ["Alice@x.com"; "alice@x.com"].
Proof.
  split; [reflexivity | split; [reflexivity |]].
  do 3 eexists. split; [reflexivity |].
  split; [vm_compute; reflexivity | reflexivity].
Qed.

End RegisterFacts.

(** ** Moderation (routers/admin_router.py) *)

Module AdminFacts.
Import Run.
Import admin_router.

(** [block_user] refuses the administrator's own account and the accounts
    of administrators. *)
Lemma block_user_guards (E : Env) (db : Tables) (user_id : Z)
    (request_data : BlockUserRequest) (current_user target_user : User.t)
    (now : Z) :
  UserDAL.first_user (UserDAL.has_id user_id) db = Some target_user ->
  (User.id target_user = User.id current_user ->
   serve (block_user user_id request_data current_user now) db
   = (Raise (HTTPException 400 "Cannot block yourself"), db))
  /\ (User.id target_user <> User.id current_user ->
      User.role target_user = "admin" ->
      serve (block_user user_id request_data current_user now) db
      = (Raise (HTTPException 400 "Cannot block other administrators"), db)).
Proof.
  intros Htarget. split.
  - intros Hself. unfold block_user. run. rewrite get_user_str. simpl.
    rewrite Htarget. apply Z.eqb_eq in Hself. now rewrite Hself.
  - intros Hother Hadmin. unfold block_user. run. rewrite get_user_str. simpl.
    rewrite Htarget. apply Z.eqb_neq in Hother. rewrite Hother, Hadmin.
    reflexivity.
Qed.

(** [suspend_user] refuses the administrator's own account. *)
Lemma suspend_user_self_guard (E : Env) (db : Tables) (user_id : Z)
    (request_data : BlockUserRequest) (current_user target_user : User.t)
    (now : Z) :
  UserDAL.first_user (UserDAL.has_id user_id) db = Some target_user ->
  User.id target_user = User.id current_user ->
  serve (suspend_user user_id request_data current_user now) db
  = (Raise (HTTPException 400 "Cannot suspend yourself"), db).
Proof.
  intros Htarget Hself. unfold suspend_user. run. rewrite get_user_str. simpl.
  rewrite Htarget. apply Z.eqb_eq in Hself. now rewrite Hself.
Qed.

(** [unblock_user] has no guard: whoever the target is, it becomes active
    and loses the record of its blocking. *)
Lemma unblock_user_any_target (E : Env) (db : Tables) (user_id : Z)
    (current_user target_user : User.t) (now : Z) :
  UserDAL.first_user (UserDAL.has_id user_id) db = Some target_user ->
  exists updated_user db1,
    serve (unblock_user user_id current_user now) db
    = (Return ("User " ++ User.name target_user ++ " has been unblocked",
               User.to_dict updated_user), db1)
    /\ UserDAL.first_user (UserDAL.has_id user_id) db1 = Some updated_user
    /\ User.status updated_user = ACTIVE
    /\ User.blocked_at updated_user = None
    /\ User.blocked_by updated_user = None
    /\ User.blocked_reason updated_user = None.
Proof.
  intros Htarget. unfold unblock_user, UserDAL.unblock_user. run.
  rewrite get_user_str. simpl. rewrite Htarget. simpl.
  rewrite get_user_str. simpl.
  rewrite first_user_update_stable, Htarget by user_row.
  cbn [option_map].
  assert (Hid : UserDAL.has_id user_id target_user = true).
  { unfold UserDAL.first_user in Htarget. now apply find_some in Htarget. }
  rewrite Hid. simpl. do 2 eexists. split; [reflexivity |].
  split; [| now destruct target_user].
  rewrite first_user_update_stable, Htarget by user_row.
  cbn [option_map]. now rewrite Hid.
Qed.

(** [block_user] at Root's requests to block Root and to block Carol. *)
Lemma block_user_guards_witness :
  UserDAL.first_user (UserDAL.has_id 3) Demo.db = Some Demo.root
  /\ UserDAL.first_user (UserDAL.has_id 4) Demo.db = Some Demo.carol
  /\ User.role Demo.carol = "admin"
  /\ serve (block_user 3 (mkBlockUserRequest None) Demo.root 2000) Demo.db
     = (Raise (HTTPException 400 "Cannot block yourself"), Demo.db)
  /\ serve (block_user 4 (mkBlockUserRequest None) Demo.root 2000) Demo.db
     = (Raise (HTTPException 400 "Cannot block other administrators"), Demo.db).
Proof.
  split; [reflexivity | split; [reflexivity | split; [reflexivity |]]].
  split.
  - exact (proj1 (block_user_guards Demo.env Demo.db 3 (mkBlockUserRequest None)
                    Demo.root Demo.root 2000 eq_refl) eq_refl).
  - apply (proj2 (block_user_guards Demo.env Demo.db 4 (mkBlockUserRequest None)
                    Demo.root Demo.carol 2000 eq_refl));
      [discriminate | reflexivity].
Defined.

(** [suspend_user] at Root's request to suspend Root. *)
Lemma suspend_user_self_guard_witness :
  UserDAL.first_user (UserDAL.has_id 3) Demo.db = Some Demo.root
  /\ serve (suspend_user 3 (mkBlockUserRequest None) Demo.root 2000) Demo.db
     = (Raise (HTTPException 400 "Cannot suspend yourself"), Demo.db).
Proof.
  split; [reflexivity |].
  exact (suspend_user_self_guard Demo.env Demo.db 3 (mkBlockUserRequest None)
           Demo.root Demo.root 2000 eq_refl eq_refl).
Defined.

(** [unblock_user] at Root's request to unblock Carol, an administrator. *)
Lemma unblock_user_any_target_witness :
  UserDAL.first_user (UserDAL.has_id 4) Demo.db = Some Demo.carol
  /\ User.role Demo.carol = "admin"
  /\ exists updated_user db1,
       serve (unblock_user 4 Demo.root 2000) Demo.db
       = (Return ("User " ++ User.name Demo.carol ++ " has been unblocked",
                  User.to_dict updated_user), db1)
       /\ User.status updated_user = ACTIVE.
Proof.
  split; [reflexivity | split; [reflexivity |]].
  destruct (unblock_user_any_target Demo.env Demo.db 4 Demo.root Demo.carol
              2000 eq_refl) as (updated_user & db1 & Hserve & _ & Hstatus & _).
  exists updated_user, db1. split; [exact Hserve | exact Hstatus].
Defined.

(** C4, on the code.  Root and Carol are administrators.  Root's request to
    block Carol is refused, but Root's request to suspend her is carried out:
    the answer is a success and Carol's status is stored as suspended. *)
Theorem suspend_user_accepts_admin_target :
  User.role Demo.root = "admin"
  /\ User.role Demo.carol = "admin"
  /\ serve (block_user 4 (mkBlockUserRequest (Some "test")) Demo.root 2000)
       Demo.db
     = (Raise (HTTPException 400 "Cannot block other administrators"), Demo.db)
  /\ exists db1,
       serve (suspend_user 4 (mkBlockUserRequest (Some "test")) Demo.root 2000)
         Demo.db
       = (Return ("User Carol has been suspended",
                  User.to_dict
                    (User.values
                       [User.set_status SUSPENDED;
                        User.set_blocked_at (Some 2000);
                        User.set_blocked_by (Some 3);
                        User.set_blocked_reason (Some "test");
                        User.set_updated_at (Some 2000)] Demo.carol)), db1)
       /\ map User.status (users db1) = [ACTIVE; BLOCKED; ACTIVE; SUSPENDED].
Proof.
  split; [reflexivity | split; [reflexivity | split; [reflexivity |]]].
  eexists. split; [vm_compute; reflexivity | reflexivity].
Qed.

End AdminFacts.

(** ** Password reset (routers/password_reset.py) *)

Module ResetFacts.
Import Run.
Import password_reset.







(** C9, as the code has it.  Let the new password pass the policy, and let
    the token be presented after the expiry stored with it.  Then
    [reset_password] fails with the expired-token error, and the stored state
    after the failure is the old one with the token and its expiry emptied on
    the account found; and if that account is active and is the one its
    address selects, [forgot_password] then issues it a new token. *)
Theorem expired_reset_token_is_cleared (E : Env) (db : Tables)
    (token new_password salt : string) (now expires_at : Z) (u : User.t) :
  fst (auth.validate_password_strength new_password) = true ->
  UserDAL.first_user (UserDAL.has_reset_token (hash_token E token)) db = Some u ->
  User.reset_token_expires u = Some expires_at ->
  expires_at < now ->
  let db1 :=
    UserDAL.update_user_where (UserDAL.has_id (User.id u))
      [User.set_reset_token None; User.set_reset_token_expires None;
       User.set_updated_at (Some now)] db in
  serve (reset_password E token new_password now salt) db
  = (Raise (HTTPException 400
              "Reset token has expired. Please request a new one."), db1)
  /\ (forall x, In x (users db1) -> User.id x = User.id u ->
        User.reset_token x = None /\ User.reset_token_expires x = None)
  /\ (forall reset_token now2,
        User.status u = ACTIVE ->
        UserDAL.first_user (UserDAL.has_email (User.email u)) db = Some u ->
        serve (forgot_password E (User.email u) now2 reset_token) db1
        = (Return (mkPasswordResetResponse
                     "If the email exists, a reset link has been sent." true),
           UserDAL.update_user_where (UserDAL.has_id (User.id u))
             [User.set_reset_token (Some (hash_token E reset_token));
              User.set_reset_token_expires (Some (now2 + 3600));
              User.set_updated_at (Some now2)] db1)).
Proof.
  intros Hstrong Hu Hexp Hlt db1. split; [| split].
  - unfold reset_password, UserDAL.get_user_by_reset_token. run.
    destruct (auth.validate_password_strength new_password) as [ok message].
    simpl in Hstrong. subst ok. simpl. rewrite Hu. simpl.
    unfold is_token_expired. rewrite Hexp.
    replace (now >? expires_at) with true by (symmetry; apply Z.gtb_lt; lia).
    unfold UserDAL.clear_password_reset_token. run. rewrite get_user_str.
    reflexivity.
  - intros x Hx Hid.
    destruct (updated_rows _ _ _ _ Hx Hid) as (y & _ & ->); [user_row |].
    destruct y. split; reflexivity.
  - intros reset_token now2 Hactive Hfirst.
    unfold forgot_password, UserDAL.get_user_by_email. run.
    unfold db1. rewrite first_user_update_stable, Hfirst by user_row.
    cbn [option_map]. rewrite has_id_self.
    match goal with
    | |- context [User.values ?a u] =>
        assert (Hst : User.status (User.values a u) = ACTIVE)
          by (destruct u; exact Hactive);
        assert (Hid : User.id (User.values a u) = User.id u)
          by (destruct u; reflexivity);
        set (u1 := User.values a u) in *
    end.
    rewrite Hst. simpl.
    unfold UserDAL.set_password_reset_token. run. rewrite get_user_str.
    rewrite Hid. reflexivity.
Qed.

(** The theorem at Alice's token, presented at the instant 9000, after its
    expiry at 5000. *)
Lemma expired_reset_token_is_cleared_witness :
  fst (auth.validate_password_strength "N3w!passw") = true
  /\ UserDAL.first_user
       (UserDAL.has_reset_token (hash_token Demo.env "raw-reset-token"))
       Demo.db_reset = Some Demo.alice_reset
  /\ User.reset_token_expires Demo.alice_reset = Some 5000
  /\ 5000 < 9000
  /\ serve (reset_password Demo.env "raw-reset-token" "N3w!passw" 9000 "salt2")
       Demo.db_reset
     = (Raise (HTTPException 400
                 "Reset token has expired. Please request a new one."),
        UserDAL.update_user_where (UserDAL.has_id 1)
          [User.set_reset_token None; User.set_reset_token_expires None;
           User.set_updated_at (Some 9000)] Demo.db_reset).
Proof.
  split; [reflexivity | split; [reflexivity | split; [reflexivity |]]].
  split; [lia |].
  apply (proj1 (expired_reset_token_is_cleared Demo.env Demo.db_reset
                  "raw-reset-token" "N3w!passw" "salt2" 9000 5000
                  Demo.alice_reset eq_refl eq_refl eq_refl ltac:(lia))).
Defined.

(** C9 fails when the new password does not pass the policy: the same
    expired token presented with the password short is answered with the
    policy's message, and the token and its expiry stay stored. *)
Lemma weak_password_keeps_expired_token :
  UserDAL.first_user
    (UserDAL.has_reset_token (hash_token Demo.env "raw-reset-token"))
    Demo.db_reset = Some Demo.alice_reset
  /\ User.reset_token_expires Demo.alice_reset = Some 5000
  /\ 5000 < 9000
  /\ serve (reset_password Demo.env "raw-reset-token" "short" 9000 "salt2")
       Demo.db_reset
     = (Raise (HTTPException 400 "Password must be at least 8 characters long"),
        Demo.db_reset).
Proof.
  split; [reflexivity | split; [reflexivity | split; [lia | reflexivity]]].
Qed.

End ResetFacts.

(** ** E-mail verification (routers/email_verification.py) *)

Module VerificationFacts.
Import Run.
Import email_verification.

(** C10.  When the account that stores the hash of the token is already
    verified, [verify_email] answers that the e-mail is already verified, at
    every instant and whatever expiry is stored, and the stored state is
    unchanged; and whenever [verify_email] fails with the expired-token
    error, the account that stores the hash is not verified. *)
Theorem verify_email_already_verified (E : Env) (db : Tables)
    (token : string) (now : Z) :
  (forall u,
      UserDAL.first_user
        (UserDAL.has_verification_token (hash_token E token)) db = Some u ->
      User.is_email_verified u = true ->
      serve (verify_email E token now) db
      = (Return (mkEmailVerificationResponse "Email is already verified."
                   true (Some true)), db))
  /\ (forall db1,
        serve (verify_email E token now) db
        = (Raise (HTTPException 400
                    "Verification token has expired. Please request a new one."),
           db1) ->
        exists u,
          UserDAL.first_user
            (UserDAL.has_verification_token (hash_token E token)) db = Some u
          /\ User.is_email_verified u = false).
Proof.
  split.
  - intros u Hu Hv.
    unfold verify_email, UserDAL.get_user_by_verification_token. run.
    rewrite Hu. simpl. rewrite Hv. reflexivity.
  - intros db1.
    unfold verify_email, UserDAL.get_user_by_verification_token. run.
    destruct (UserDAL.first_user _ db) as [u|]; simpl.
    + destruct (User.is_email_verified u) eqn:Hv; simpl; [discriminate |].
      intros _. now exists u.
    + discriminate.
Qed.

(** The theorem at Root's account, verified, whose stored token lapsed at
    the instant 10 and is presented at the instant 9000. *)
Lemma verify_email_already_verified_witness :
  UserDAL.first_user
    (UserDAL.has_verification_token (hash_token Demo.env "raw-verify-token"))
    Demo.db_verified = Some Demo.root_token
  /\ User.is_email_verified Demo.root_token = true
  /\ User.email_verification_expires Demo.root_token = Some 10
  /\ serve (verify_email Demo.env "raw-verify-token" 9000) Demo.db_verified
     = (Return (mkEmailVerificationResponse "Email is already verified."
                  true (Some true)), Demo.db_verified).
Proof.
  split; [reflexivity | split; [reflexivity | split; [reflexivity |]]].
  exact (proj1 (verify_email_already_verified Demo.env Demo.db_verified
                  "raw-verify-token" 9000)
           Demo.root_token eq_refl eq_refl).
Defined.

End VerificationFacts.

(** ** Further lemmas on selects and updates *)

Module Steps.
Import Run.

Lemma first_user_in (p : User.t -> bool) (db : Tables) (u : User.t) :
  UserDAL.first_user p db = Some u -> In u (users db) /\ p u = true.
Proof. unfold UserDAL.first_user. apply find_some. Qed.

(** A condition that some row satisfies selects a row. *)
Lemma first_user_exists (p : User.t -> bool) (db : Tables) (u : User.t) :
  In u (users db) -> p u = true ->
  exists v, UserDAL.first_user p db = Some v.
Proof.
  unfold UserDAL.first_user. intros Hin Hp.
  destruct (find p (users db)) as [v|] eqn:Hf; [now exists v |].
  apply (find_none _ _ Hf) in Hin. congruence.
Qed.

(** With a unique key, the select by key finds the row that carries it. *)
Lemma first_user_by_key (db : Tables) (u : User.t) :
  Schema.keys_unique db -> In u (users db) ->
  UserDAL.first_user (UserDAL.has_id (User.id u)) db = Some u.
Proof.
  unfold Schema.keys_unique, UserDAL.first_user.
  induction (users db) as [|x l IH]; simpl; intros Hnd Hin; [contradiction |].
  inversion Hnd as [|? ? Hnot Hnd']; subst.
  destruct Hin as [-> | Hin].
  - now rewrite has_id_self.
  - destruct (UserDAL.has_id (User.id u) x) eqn:Hx; [| now apply IH].
    exfalso. apply Hnot. unfold UserDAL.has_id in Hx. apply Z.eqb_eq in Hx.
    rewrite Hx. now apply in_map.
Qed.

(** The row the select by key finds after an update that keeps the keys. *)
Lemma first_user_by_key_updated (n : Z) (assignments : list (User.t -> User.t))
    (db : Tables) (u : User.t) :
  (forall x, User.id (User.values assignments x) = User.id x) ->
  UserDAL.first_user (UserDAL.has_id n) db = Some u ->
  UserDAL.first_user (UserDAL.has_id n)
    (UserDAL.update_user_where (UserDAL.has_id n) assignments db)
  = Some (User.values assignments u).
Proof.
  intros Hkeep Hu.
  rewrite first_user_update_stable, Hu.
  - simpl. apply first_user_in in Hu as [_ Hid]. now rewrite Hid.
  - intros x. unfold UserDAL.has_id. now rewrite Hkeep.
Qed.

Lemma users_update_session (p : UserSession.t -> bool)
    (f : UserSession.t -> UserSession.t) (db : Tables) :
  users (UserDAL.update_session_where p f db) = users db.
Proof. reflexivity. Qed.

End Steps.

(** ** The authorization guard (routers/auth_router.py) *)

Module GuardFacts.
Import Run Steps.
Import auth_router.

(** [get_current_user] writes nothing in the session. *)
Lemma get_current_user_keeps_session (E : Env) (token : Jose.token) (now : Z)
    (s : AsyncSession) :
  snd (get_current_user E token now s) = s.
Proof.
  unfold get_current_user, bind, call.
  destruct (auth.verify_token E token now) as [[payload|]|e]; simpl;
    try reflexivity.
  destruct (Jose.dict_get "sub" payload) as [subject|]; simpl;
    [| reflexivity].
  destruct (Jose.dict_get "jti" payload) as [token_id|]; simpl;
    [| reflexivity].
  unfold UserDAL.get_user.
  destruct (Str.int (str_of_claim subject)) as [n|]; simpl; [| reflexivity].
  unfold query. simpl.
  destruct (UserDAL.first_user (UserDAL.has_id n) (pending s)) as [u|]; simpl;
    [| reflexivity].
  now destruct (User.is_blocked u).
Qed.



(** [require_admin] stores nothing.  An account it returns is the one
    [get_current_user] returns, its role is admin and its status active; an
    authenticated account of another role is refused with 403 "Admin access
    required", and an administrator whose status is not active with 403
    "Admin account is not active". *)
Theorem require_admin_sound (E : Env) (token : Jose.token) (now : Z)
    (db : Tables) :
  snd (serve (require_admin E token now) db) = db
  /\ (forall u,
        fst (serve (require_admin E token now) db) = Return u ->
        fst (serve (get_current_user E token now) db) = Return u
        /\ User.role u = "admin" /\ User.status u = ACTIVE)
  /\ (forall u,
        fst (serve (get_current_user E token now) db) = Return u ->
        User.role u <> "admin" ->
        fst (serve (require_admin E token now) db)
        = Raise (HTTPException 403 "Admin access required"))
  /\ (forall u,
        fst (serve (get_current_user E token now) db) = Return u ->
        User.role u = "admin" -> User.status u <> ACTIVE ->
        fst (serve (require_admin E token now) db)
        = Raise (HTTPException 403 "Admin account is not active")).
Proof.
  pose proof (get_current_user_keeps_session E token now (mkSession db db))
    as Hro.
  unfold require_admin, serve, bind in *.
  destruct (get_current_user E token now (mkSession db db)) as [[v|e] s'];
    simpl in *; subst s'.
  - unfold raise, ret.
    split; [| split; [| split]].
    + destruct (String.eqb (User.role v) "admin"); simpl; [| reflexivity].
      now destruct (User.is_active v).
    + intros u.
      destruct (String.eqb (User.role v) "admin") eqn:Hr; simpl;
        [| discriminate].
      destruct (User.is_active v) eqn:Ha; simpl; [| discriminate].
      intros H. injection H as <-. apply String.eqb_eq in Hr.
      unfold User.is_active in Ha. destruct (User.status v); try discriminate.
      repeat split; assumption.
    + intros u Hu Hr. injection Hu as <-.
      apply String.eqb_neq in Hr. now rewrite Hr.
    + intros u Hu Hr Hst. injection Hu as <-.
      apply String.eqb_eq in Hr. rewrite Hr. simpl.
      unfold User.is_active. destruct (User.status v); try reflexivity.
      contradiction.
  - split; [reflexivity | split; [| split]]; intros u Hu; discriminate Hu.
Qed.

(** The theorem at Root's token, which is let through, and at Alice's,
    which is refused. *)
Lemma require_admin_sound_witness :
  fst (serve (require_admin Demo.env Scenario.root_token 1500) Demo.db)
  = Return Demo.root
  /\ User.role Demo.root = "admin"
  /\ User.status Demo.root = ACTIVE
  /\ fst (serve (get_current_user Demo.env Scenario.alice_token 1500) Demo.db)
     = Return Demo.alice
  /\ User.role Demo.alice <> "admin"
  /\ fst (serve (require_admin Demo.env Scenario.alice_token 1500) Demo.db)
     = Raise (HTTPException 403 "Admin access required").
Proof.
  split; [reflexivity |].
  destruct (proj1 (proj2 (require_admin_sound Demo.env Scenario.root_token
                            1500 Demo.db)) Demo.root eq_refl)
    as (_ & Hrole & Hstatus).
  split; [exact Hrole | split; [exact Hstatus | split; [reflexivity |]]].
  split; [discriminate |].
  apply (proj1 (proj2 (proj2 (require_admin_sound Demo.env
                                Scenario.alice_token 1500 Demo.db)))
           Demo.alice eq_refl).
  discriminate.
Defined.

End GuardFacts.

(** ** Login and the session it opens (routers/auth_router.py) *)

Module LoginFacts.
Import Run Steps.
Import auth_router.





(** A [login] that fails stores nothing: the new [last_login] is written
    in the session and never committed. *)
Theorem failed_login_stores_nothing (E : Env) (user_credentials : UserLogin.t)
    (ip user_agent : string) (now : Z) (token_id : string) (db db1 : Tables)
    (e : exn) :
  serve (login E user_credentials ip user_agent now token_id) db
  = (Raise e, db1) ->
  db1 = db.
Proof.
  unfold login, UserDAL.authenticate_user, UserDAL.get_user_by_email. run.
  destruct (UserDAL.first_user _ db) as [u|]; simpl;
    [| intros H; now injection H].
  destruct (User.is_active u && _); simpl; [| intros H; now injection H].
  unfold UserDAL.update_last_login. run.
  destruct (User.is_blocked u); simpl; [intros H; now injection H |].
  unfold UserDAL.create_session. simpl.
  destruct (existsb _ (user_sessions db)); simpl;
    [intros H; now injection H | discriminate].
Qed.

(** The theorem at a login of Alice with a wrong password. *)
Lemma failed_login_stores_nothing_witness :
  exists e,
    serve (login Demo.env (UserLogin.validate "alice@x.com" "wrong")
             "10.0.0.1" "curl" 1000 "tid-1") Demo.db
    = (Raise e, Demo.db).
Proof.
  exists (HTTPException 401 "Incorrect email or password").
  rewrite <- (failed_login_stores_nothing Demo.env
                (UserLogin.validate "alice@x.com" "wrong")
                "10.0.0.1" "curl" 1000 "tid-1" Demo.db
                (snd (serve (login Demo.env
                               (UserLogin.validate "alice@x.com" "wrong")
                               "10.0.0.1" "curl" 1000 "tid-1") Demo.db))
                (HTTPException 401 "Incorrect email or password") eq_refl)
    at 2.
  reflexivity.
Defined.

End LoginFacts.

(** ** The session ledger (routers/auth_router.py, routers/admin_router.py) *)

Module SessionFacts.
Import Run Steps.
Import auth_router.

(** What a successful [logout] has stored. *)
Lemma logout_success (E : Env) (token : Jose.token) (now : Z)
    (db db1 : Tables) (message token_id : string) (payload : Jose.claims) :
  auth.verify_token E token now = Return (Some payload) ->
  Jose.dict_get "jti" payload = Some (Jose.JStr token_id) ->
  token_id <> "" ->
  serve (logout E token now) db = (Return message, db1) ->
  db1 = UserDAL.update_session_where
          (fun r => String.eqb (UserSession.token_id r) token_id)
          (Schema.closed now) db.
Proof.
  intros Hv Hj Hne. unfold logout, serve, bind.
  pose proof (GuardFacts.get_current_user_keeps_session E token now
                (mkSession db db)) as Hro.
  destruct (get_current_user E token now (mkSession db db)) as [[u|e] s'];
    [| discriminate].
  simpl in Hro. subst s'. unfold call. rewrite Hv, Hj. simpl.
  apply String.eqb_neq in Hne. rewrite Hne. simpl.
  unfold UserDAL.end_session. run. intros H. now injection H as _ <-.
Qed.

(** The sessions after an update that closes the rows a condition
    selects. *)
Lemma closed_rows (p : UserSession.t -> bool) (now : Z) (db : Tables) :
  let db1 := UserDAL.update_session_where p (Schema.closed now) db in
  users db1 = users db
  /\ length (user_sessions db1) = length (user_sessions db)
  /\ (forall r, In r (user_sessions db1) -> p r = true ->
        (forall x, p (Schema.closed now x) = p x) ->
        UserSession.is_active r = false
        /\ UserSession.logout_time r = Some now)
  /\ (forall r, In r (user_sessions db) -> p r = false ->
        In r (user_sessions db1))
  /\ (forall r, In r (user_sessions db1) -> UserSession.is_active r = true ->
        In r (user_sessions db))
  /\ ((forall r, In r (user_sessions db) -> p r = false) -> db1 = db).
Proof.
  unfold UserDAL.update_session_where. simpl.
  split; [reflexivity | split; [apply length_map | split; [| split; [| split]]]].
  - intros r Hin Hp Hstable. apply in_map_iff in Hin as (x & Hx & _).
    destruct (p x) eqn:Hpx; subst r; [split; reflexivity | congruence].
  - intros r Hin Hp. apply in_map_iff. exists r. now rewrite Hp.
  - intros r Hin Ha. apply in_map_iff in Hin as (x & Hx & Hin).
    destruct (p x); subst r; [discriminate | exact Hin].
  - intros Hnone. destruct db as [us ss a b]. simpl in *. f_equal.
    induction ss as [|x ss IH]; simpl; [reflexivity |].
    rewrite (Hnone x (or_introl eq_refl)). f_equal. apply IH.
    intros r Hr. apply Hnone. now right.
Qed.

(** A [logout] that succeeds with a token whose [jti] is a non-empty
    string leaves the [user] table and the number of sessions as they were;
    every session of that token is then inactive with [logout_time] the
    present instant, the sessions of other tokens are untouched, no session
    is reopened, and when no session carries the token nothing changes at
    all. *)
Theorem logout_closes_its_session (E : Env) (token : Jose.token) (now : Z)
    (db db1 : Tables) (message token_id : string) (payload : Jose.claims) :
  auth.verify_token E token now = Return (Some payload) ->
  Jose.dict_get "jti" payload = Some (Jose.JStr token_id) ->
  token_id <> "" ->
  serve (logout E token now) db = (Return message, db1) ->
  users db1 = users db
  /\ length (user_sessions db1) = length (user_sessions db)
  /\ (forall r, In r (user_sessions db1) -> UserSession.token_id r = token_id ->
        UserSession.is_active r = false
        /\ UserSession.logout_time r = Some now)
  /\ (forall r, In r (user_sessions db) -> UserSession.token_id r <> token_id ->
        In r (user_sessions db1))
  /\ (forall r, In r (user_sessions db1) -> UserSession.is_active r = true ->
        In r (user_sessions db))
  /\ ((forall r, In r (user_sessions db) -> UserSession.token_id r <> token_id) ->
      db1 = db).
Proof.
  intros Hv Hj Hne Hserve.
  rewrite (logout_success _ _ _ _ _ _ _ _ Hv Hj Hne Hserve).
  destruct (closed_rows (fun r => String.eqb (UserSession.token_id r) token_id)
              now db) as (Hu & Hl & Hc & Ho & Ha & Hn).
  split; [exact Hu | split; [exact Hl | split; [| split; [| split]]]].
  - intros r Hin Hr. apply Hc; [exact Hin | now apply String.eqb_eq |].
    intros x. reflexivity.
  - intros r Hin Hr. apply Ho; [exact Hin | now apply String.eqb_neq].
  - exact Ha.
  - intros Hnone. apply Hn. intros r Hin. apply String.eqb_neq. now apply Hnone.
Qed.

(** The theorem at Alice's logout at the instant 1500 with the token of her
    session tid-1. *)
Lemma logout_closes_its_session_witness :
  auth.verify_token Demo.env Scenario.alice_token 1500
  = Return (Some [("sub", Jose.JStr "1"); ("email", Jose.JStr "alice@x.com");
                  ("role", Jose.JStr "user"); ("exp", Jose.JInt 2800);
                  ("iat", Jose.JInt 1000); ("jti", Jose.JStr "tid-1")])
  /\ exists db1,
       serve (logout Demo.env Scenario.alice_token 1500) Scenario.db_sessions
       = (Return "Successfully logged out", db1)
       /\ users db1 = users Scenario.db_sessions
       /\ length (user_sessions db1) = 4%nat
       /\ map UserSession.is_active (user_sessions db1)
          = [false; true; true; false].
Proof.
  split; [reflexivity |].
  eexists. split; [reflexivity |].
  destruct (logout_closes_its_session Demo.env Scenario.alice_token 1500
              Scenario.db_sessions _ "Successfully logged out" "tid-1" _
              eq_refl eq_refl ltac:(discriminate) eq_refl)
    as (Husers & Hlength & _).
  split; [exact Husers | split; [exact Hlength | reflexivity]].
Defined.

(** The loop of [logout_all_user_sessions] amounts to one update. *)
Lemma end_each_spec (sessions : list UserSession.t) (now : Z) (s : AsyncSession) :
  admin_router.end_each sessions now s
  = (Return tt,
     mkSession (committed s)
       (UserDAL.update_session_where (Schema.closes sessions) (Schema.closed now)
          (pending s))).
Proof.
  revert s. induction sessions as [|x l IH]; intros s.
  - simpl. unfold ret. f_equal. destruct s as [c [us ss a b]]. simpl.
    unfold UserDAL.update_session_where. simpl. repeat f_equal.
    symmetry. apply map_id.
  - simpl. unfold bind, UserDAL.end_session, execute. simpl. rewrite IH. simpl.
    f_equal. f_equal. unfold UserDAL.update_session_where. simpl. f_equal.
    rewrite map_map. apply map_ext. intros r. unfold Schema.closes. simpl.
    destruct (String.eqb (UserSession.token_id r) (UserSession.token_id x));
      simpl.
    + now destruct (existsb _ l).
    + reflexivity.
Qed.

Lemma filter_none {A : Type} (p : A -> bool) (l : list A) :
  (forall x, In x l -> p x = false) -> filter p l = [].
Proof.
  induction l as [|x l IH]; simpl; intros H; [reflexivity |].
  rewrite (H x (or_introl eq_refl)). apply IH. intros y Hy. apply H. now right.
Qed.

(** A [logout_all_user_sessions] that succeeds leaves the [user] table as
    it was, reports as [sessions_ended] the number of sessions of the account
    that were active, leaves the account no active session, and reopens
    none. *)
Theorem logout_all_closes_every_session (user_id : Z) (current_user : User.t)
    (now : Z) (db db1 : Tables) (message : string) (sessions_ended : Z) :
  serve (admin_router.logout_all_user_sessions user_id current_user now) db
  = (Return (message, sessions_ended), db1) ->
  users db1 = users db
  /\ sessions_ended
     = Z.of_nat (length (filter (Schema.open_for user_id) (user_sessions db)))
  /\ serve (UserDAL.get_active_sessions user_id) db1 = (Return [], db1)
  /\ (forall r, In r (user_sessions db1) -> UserSession.is_active r = true ->
        In r (user_sessions db)).
Proof.
  unfold admin_router.logout_all_user_sessions. run. rewrite get_user_str. simpl.
  destruct (UserDAL.first_user (UserDAL.has_id user_id) db) as [target|];
    simpl; [| discriminate].
  rewrite end_each_spec. simpl. intros H. injection H as _ <- <-.
  fold (Schema.open_for user_id).
  set (active := filter (Schema.open_for user_id) (user_sessions db)).
  destruct (closed_rows (Schema.closes active) now db) as (Hu & _ & _ & _ & Ha & _).
  split; [exact Hu | split; [reflexivity | split; [| exact Ha]]].
  f_equal. f_equal. unfold UserDAL.update_session_where. simpl.
  fold (Schema.open_for user_id).
  apply filter_none. intros x Hx.
  apply in_map_iff in Hx as (r & <- & Hr).
  destruct (Schema.closes active r) eqn:Hc.
  - unfold Schema.open_for, Schema.closed. simpl. apply andb_false_r.
  - destruct (Schema.open_for user_id r) eqn:Ho; [| reflexivity].
    exfalso. assert (Hin : In r active) by (apply filter_In; now split).
    unfold Schema.closes in Hc.
    assert (Ht : existsb (fun x => String.eqb (UserSession.token_id r)
                                     (UserSession.token_id x)) active = true).
    { apply existsb_exists. exists r. split; [exact Hin |].
      apply String.eqb_refl. }
    congruence.
Qed.

(** The theorem at Root's request to end Alice's sessions: two were
    active. *)
Lemma logout_all_closes_every_session_witness :
  exists db1,
    serve (admin_router.logout_all_user_sessions 1 Demo.root 1500)
      Scenario.db_sessions
    = (Return ("All sessions for user Alice have been terminated", 2), db1)
    /\ serve (UserDAL.get_active_sessions 1) db1 = (Return [], db1)
    /\ map UserSession.is_active (user_sessions db1)
       = [false; true; false; false].
Proof.
  eexists. split; [reflexivity |].
  destruct (logout_all_closes_every_session 1 Demo.root 1500
              Scenario.db_sessions _ _ _ eq_refl) as (_ & _ & Hnone & _).
  split; [exact Hnone | reflexivity].
Defined.

End SessionFacts.

(** ** Moderation and the guard (routers/admin_router.py) *)

Module ModerationFacts.
Import Run Steps.
Import auth_router admin_router.

(** [get_current_user] on a token that verifies and names the key [n]. *)
Lemma get_current_user_of_row (E : Env) (token : Jose.token) (t n : Z)
    (payload : Jose.claims) (subject token_id : Jose.jval) (db : Tables)
    (u : User.t) :
  auth.verify_token E token t = Return (Some payload) ->
  Jose.dict_get "sub" payload = Some subject ->
  Jose.dict_get "jti" payload = Some token_id ->
  Str.int (str_of_claim subject) = Some n ->
  UserDAL.first_user (UserDAL.has_id n) db = Some u ->
  serve (get_current_user E token t) db
  = if User.is_blocked u then
      (Raise (HTTPException 403
                ("Account is " ++ UserStatus_value (User.status u)
                 ++ ". Contact administrator.")), db)
    else (Return u, db).
Proof.
  intros Hv Hs Hj Hn Hu. unfold get_current_user, serve, bind, call.
  rewrite Hv, Hs, Hj. unfold UserDAL.get_user. rewrite Hn. unfold query.
  cbn [pending fst snd]. rewrite Hu. now destruct (User.is_blocked u).
Qed.

Lemma block_user_success (user_id : Z) (request_data : BlockUserRequest)
    (current_user : User.t) (now : Z) (db db1 : Tables) (body : status_change) :
  serve (block_user user_id request_data current_user now) db
  = (Return body, db1) ->
  exists target_user,
    UserDAL.first_user (UserDAL.has_id user_id) db = Some target_user
    /\ User.id target_user <> User.id current_user
    /\ User.role target_user <> "admin"
    /\ db1 = UserDAL.update_user_where (UserDAL.has_id user_id)
               [User.set_status BLOCKED;
                User.set_blocked_at (Some now);
                User.set_blocked_by (Some (User.id current_user));
                User.set_blocked_reason (reason request_data);
                User.set_updated_at (Some now)] db.
Proof.
  unfold block_user. run. rewrite get_user_str. simpl.
  destruct (UserDAL.first_user (UserDAL.has_id user_id) db) as [target|] eqn:Ht;
    simpl; [| discriminate].
  destruct (Z.eqb_spec (User.id target) (User.id current_user)) as [|Hneq];
    simpl; [discriminate |].
  destruct (String.eqb_spec (User.role target) "admin") as [|Hrole]; simpl;
    [discriminate |].
  unfold UserDAL.block_user. run. rewrite get_user_str. simpl.
  rewrite first_user_by_key_updated with (u := target);
    [| user_row | exact Ht].
  simpl.
  intros H. injection H as _ <-. exists target. repeat split; assumption.
Qed.

Lemma suspend_user_success (user_id : Z) (request_data : BlockUserRequest)
    (current_user : User.t) (now : Z) (db db1 : Tables) (body : status_change) :
  serve (suspend_user user_id request_data current_user now) db
  = (Return body, db1) ->
  exists target_user,
    UserDAL.first_user (UserDAL.has_id user_id) db = Some target_user
    /\ User.id target_user <> User.id current_user
    /\ db1 = UserDAL.update_user_where (UserDAL.has_id user_id)
               [User.set_status SUSPENDED;
                User.set_blocked_at (Some now);
                User.set_blocked_by (Some (User.id current_user));
                User.set_blocked_reason (reason request_data);
                User.set_updated_at (Some now)] db.
Proof.
  unfold suspend_user. run. rewrite get_user_str. simpl.
  destruct (UserDAL.first_user (UserDAL.has_id user_id) db) as [target|] eqn:Ht;
    simpl; [| discriminate].
  destruct (Z.eqb_spec (User.id target) (User.id current_user)) as [|Hneq];
    simpl; [discriminate |].
  unfold UserDAL.suspend_user. run. rewrite get_user_str. simpl.
  rewrite first_user_by_key_updated with (u := target);
    [| user_row | exact Ht].
  simpl.
  intros H. injection H as _ <-. exists target. repeat split; assumption.
Qed.

(** Moderation takes effect at once: after [block_user] or [suspend_user]
    has succeeded on an account, a token of that account that still verifies
    is refused by [get_current_user] with 403 and the new status. *)
Theorem blocked_account_is_refused (E : Env) (token : Jose.token) (t : Z)
    (payload : Jose.claims) (subject token_id : Jose.jval)
    (user_id : Z) (request_data : BlockUserRequest) (current_user : User.t)
    (now : Z) (db db1 : Tables) (body : status_change) :
  auth.verify_token E token t = Return (Some payload) ->
  Jose.dict_get "sub" payload = Some subject ->
  Jose.dict_get "jti" payload = Some token_id ->
  Str.int (str_of_claim subject) = Some user_id ->
  (serve (block_user user_id request_data current_user now) db
   = (Return body, db1) ->
   serve (get_current_user E token t) db1
   = (Raise (HTTPException 403 "Account is blocked. Contact administrator."),
      db1))
  /\ (serve (suspend_user user_id request_data current_user now) db
      = (Return body, db1) ->
      serve (get_current_user E token t) db1
      = (Raise (HTTPException 403
                  "Account is suspended. Contact administrator."), db1)).
Proof.
  intros Hv Hs Hj Hn. split; intros Hok.
  - destruct (block_user_success _ _ _ _ _ _ _ Hok) as (target & Ht & _ & _ & ->).
    erewrite get_current_user_of_row;
      [| exact Hv | exact Hs | exact Hj | exact Hn
       | apply first_user_by_key_updated; [user_row | exact Ht]].
    now destruct target.
  - destruct (suspend_user_success _ _ _ _ _ _ _ Hok) as (target & Ht & _ & ->).
    erewrite get_current_user_of_row;
      [| exact Hv | exact Hs | exact Hj | exact Hn
       | apply first_user_by_key_updated; [user_row | exact Ht]].
    now destruct target.
Qed.

(** The theorem at Root's blocking of Alice at the instant 1200 and Alice's
    token presented at 1500. *)
Lemma blocked_account_is_refused_witness :
  auth.verify_token Demo.env Scenario.alice_token 1500
  = Return (Some [("sub", Jose.JStr "1"); ("email", Jose.JStr "alice@x.com");
                  ("role", Jose.JStr "user"); ("exp", Jose.JInt 2800);
                  ("iat", Jose.JInt 1000); ("jti", Jose.JStr "tid-1")])
  /\ exists body db1,
       serve (block_user 1 (mkBlockUserRequest (Some "spam")) Demo.root 1200)
         Demo.db
       = (Return body, db1)
       /\ serve (get_current_user Demo.env Scenario.alice_token 1500) db1
          = (Raise (HTTPException 403
                      "Account is blocked. Contact administrator."), db1).
Proof.
  split; [reflexivity |].
  do 2 eexists. split; [reflexivity |].
  eapply (proj1 (blocked_account_is_refused Demo.env Scenario.alice_token 1500
                   _ (Jose.JStr "1") (Jose.JStr "tid-1") 1
                   (mkBlockUserRequest (Some "spam")) Demo.root 1200 Demo.db
                   _ _ eq_refl eq_refl eq_refl eq_refl)).
  reflexivity.
Defined.

Lemma unblock_user_success (user_id : Z) (current_user : User.t) (now : Z)
    (db db1 : Tables) (body : status_change) :
  serve (unblock_user user_id current_user now) db = (Return body, db1) ->
  exists target_user,
    UserDAL.first_user (UserDAL.has_id user_id) db = Some target_user
    /\ db1 = UserDAL.update_user_where (UserDAL.has_id user_id)
               [User.set_status ACTIVE;
                User.set_blocked_at None;
                User.set_blocked_by None;
                User.set_blocked_reason None;
                User.set_updated_at (Some now)] db.
Proof.
  unfold unblock_user. run. rewrite get_user_str. simpl.
  destruct (UserDAL.first_user (UserDAL.has_id user_id) db) as [target|] eqn:Ht;
    simpl; [| discriminate].
  unfold UserDAL.unblock_user. run. rewrite get_user_str. simpl.
  rewrite first_user_by_key_updated with (u := target);
    [| user_row | exact Ht].
  simpl. intros H. injection H as _ <-. exists target. now split.
Qed.

(** After [unblock_user] has succeeded on an account, a token of that
    account that still verifies is accepted again, and the account returned
    is active and carries no record of the blocking. *)
Theorem unblocked_account_is_admitted (E : Env) (token : Jose.token) (t : Z)
    (payload : Jose.claims) (subject token_id : Jose.jval)
    (user_id : Z) (current_user : User.t) (now : Z) (db db1 : Tables)
    (body : status_change) :
  auth.verify_token E token t = Return (Some payload) ->
  Jose.dict_get "sub" payload = Some subject ->
  Jose.dict_get "jti" payload = Some token_id ->
  Str.int (str_of_claim subject) = Some user_id ->
  serve (unblock_user user_id current_user now) db = (Return body, db1) ->
  exists u,
    serve (get_current_user E token t) db1 = (Return u, db1)
    /\ User.id u = user_id
    /\ User.status u = ACTIVE
    /\ User.blocked_at u = None
    /\ User.blocked_by u = None
    /\ User.blocked_reason u = None.
Proof.
  intros Hv Hs Hj Hn Hok.
  destruct (unblock_user_success _ _ _ _ _ _ Hok) as (target & Ht & ->).
  eexists. split.
  - erewrite get_current_user_of_row;
      [| exact Hv | exact Hs | exact Hj | exact Hn
       | apply first_user_by_key_updated; [user_row | exact Ht]].
    now destruct target.
  - apply first_user_in in Ht as [_ Hid].
    unfold UserDAL.has_id in Hid. apply Z.eqb_eq in Hid.
    destruct target. simpl in *. repeat split. exact Hid.
Qed.

(** The theorem at Root's unblocking of Bob at the instant 1200 and Bob's
    token presented at 1500. *)
Lemma unblocked_account_is_admitted_witness :
  fst (serve (get_current_user Demo.env Scenario.bob_token 1500) Demo.db)
  = Raise (HTTPException 403 "Account is blocked. Contact administrator.")
  /\ exists body db1 u,
       serve (unblock_user 2 Demo.root 1200) Demo.db = (Return body, db1)
       /\ serve (get_current_user Demo.env Scenario.bob_token 1500) db1
          = (Return u, db1)
       /\ User.status u = ACTIVE.
Proof.
  split; [reflexivity |].
  destruct (unblocked_account_is_admitted Demo.env Scenario.bob_token 1500
              _ (Jose.JStr "2") (Jose.JStr "tid-2") 2 Demo.root 1200 Demo.db
              (snd (serve (unblock_user 2 Demo.root 1200) Demo.db))
              ("User Bob has been unblocked",
               User.to_dict
                 (User.values
                    [User.set_status ACTIVE; User.set_blocked_at None;
                     User.set_blocked_by None; User.set_blocked_reason None;
                     User.set_updated_at (Some 1200)] Demo.bob))
              eq_refl eq_refl eq_refl eq_refl eq_refl)
    as (u & Hu & _ & Hstatus & _).
  do 2 eexists. exists u. split; [reflexivity | split; assumption].
Defined.

(** [change_user_role] refuses a role other than user and admin with 400
    and an unknown account with 404, storing nothing; otherwise it writes the
    role and [updated_at] of the account and nothing else, whoever the
    account is, the acting administrator included. *)
Theorem change_user_role_effect (E : Env) (user_id : Z) (new_role : string)
    (current_user : User.t) (now : Z) (salt : string) (db : Tables) :
  (new_role <> "user" -> new_role <> "admin" ->
   serve (change_user_role E user_id new_role current_user now salt) db
   = (Raise (HTTPException 400 "Role must be 'user' or 'admin'"), db))
  /\ ((new_role = "user" \/ new_role = "admin") ->
      UserDAL.first_user (UserDAL.has_id user_id) db = None ->
      serve (change_user_role E user_id new_role current_user now salt) db
      = (Raise (HTTPException 404 "User not found"), db))
  /\ (forall target_user,
        (new_role = "user" \/ new_role = "admin") ->
        UserDAL.first_user (UserDAL.has_id user_id) db = Some target_user ->
        serve (change_user_role E user_id new_role current_user now salt) db
        = (Return ("User " ++ User.name target_user ++ " role changed to "
                   ++ new_role,
                   User.to_dict
                     (User.set_role new_role
                        (User.set_updated_at (Some now) target_user))),
           UserDAL.update_user_where (UserDAL.has_id user_id)
             [User.set_updated_at (Some now); User.set_role new_role] db)).
Proof.
  split; [| split].
  - intros H1 H2. unfold change_user_role. simpl.
    apply String.eqb_neq in H1, H2. rewrite H1, H2. reflexivity.
  - intros Hrole Hnone. unfold change_user_role.
    assert (Hin : existsb (String.eqb new_role) ["user"; "admin"] = true).
    { destruct Hrole as [-> | ->]; reflexivity. }
    rewrite Hin. run. rewrite get_user_str. simpl. now rewrite Hnone.
  - intros target Hrole Ht. unfold change_user_role.
    assert (Hin : existsb (String.eqb new_role) ["user"; "admin"] = true).
    { destruct Hrole as [-> | ->]; reflexivity. }
    assert (Hne : String.eqb new_role "" = false).
    { destruct Hrole as [-> | ->]; reflexivity. }
    rewrite Hin. run. rewrite get_user_str. simpl. rewrite Ht. simpl.
    unfold UserDAL.update_user. run. unfold UserDAL.assignment_of.
    rewrite Hne. simpl. rewrite get_user_str. simpl.
    rewrite first_user_by_key_updated with (u := target);
      [| user_row | exact Ht].
    reflexivity.
Qed.

(** The theorem at Root's change of Root's own role to user. *)
Lemma change_user_role_effect_witness :
  UserDAL.first_user (UserDAL.has_id 3) Demo.db = Some Demo.root
  /\ User.role Demo.root = "admin"
  /\ exists db1,
       serve (change_user_role Demo.env 3 "user" Demo.root 1200 "salt") Demo.db
       = (Return ("User Root role changed to user",
                  User.to_dict
                    (User.set_role "user"
                       (User.set_updated_at (Some 1200) Demo.root))), db1)
       /\ map User.role (users db1) = ["user"; "user"; "user"; "admin"].
Proof.
  split; [reflexivity | split; [reflexivity |]].
  eexists. split.
  - exact (proj2 (proj2 (change_user_role_effect Demo.env 3 "user" Demo.root
                           1200 "salt" Demo.db))
             Demo.root (or_introl eq_refl) eq_refl).
  - reflexivity.
Defined.

End ModerationFacts.

(** ** Issue and redemption of the out-of-band tokens
    (routers/password_reset.py, routers/email_verification.py) *)

Module Marks.
Import Run Steps.

(** After an update whose assignments make a condition true, on a table
    where no row satisfied it, the select by that condition finds the first
    row that the update reached. *)
Lemma first_user_marked (p : User.t -> bool) (n : Z)
    (assignments : list (User.t -> User.t)) (db : Tables) :
  (forall x, p (User.values assignments x) = true) ->
  (forall x, In x (users db) -> p x = false) ->
  UserDAL.first_user p
    (UserDAL.update_user_where (UserDAL.has_id n) assignments db)
  = option_map (User.values assignments)
      (UserDAL.first_user (UserDAL.has_id n) db).
Proof.
  intros Hset Hfresh. unfold UserDAL.first_user, UserDAL.update_user_where.
  simpl. induction (users db) as [|x l IH]; simpl; [reflexivity |].
  destruct (UserDAL.has_id n x) eqn:Hid.
  - now rewrite Hset.
  - rewrite (Hfresh x (or_introl eq_refl)). apply IH.
    intros y Hy. apply Hfresh. now right.
Qed.

(** Once an update has made a condition false on every row that satisfied
    it, the select by that condition finds nothing. *)
Lemma first_user_unmarked (p : User.t -> bool) (n : Z)
    (assignments : list (User.t -> User.t)) (db : Tables) :
  (forall x, p (User.values assignments x) = false) ->
  (forall x, In x (users db) -> p x = true -> User.id x = n) ->
  UserDAL.first_user p
    (UserDAL.update_user_where (UserDAL.has_id n) assignments db) = None.
Proof.
  intros Hclear Hone. unfold UserDAL.first_user, UserDAL.update_user_where.
  simpl. apply find_none_map. intros x Hx.
  destruct (UserDAL.has_id n x) eqn:Hid; [apply Hclear |].
  destruct (p x) eqn:Hp; [| reflexivity].
  apply (Hone x Hx) in Hp. unfold UserDAL.has_id in Hid.
  apply Z.eqb_neq in Hid. contradiction.
Qed.

(** The keys of the accounts of the deployment are distinct. *)
Lemma demo_keys_unique : Schema.keys_unique Demo.db.
Proof.
  unfold Schema.keys_unique. simpl.
  repeat (constructor; [simpl; intuition discriminate |]). constructor.
Qed.

End Marks.

Module RecoveryFacts.
Import Run Steps Marks.
Import password_reset.




End RecoveryFacts.

Module VerificationFlow.
Import Run Steps Marks.
Import email_verification.

(** Let at most one account store the hash of a verification token, let
    that account be unverified and the token be presented no later than its
    expiry.  Then [verify_email] verifies the account and empties the token
    and its expiry in one update, and every further presentation of the
    token fails with the invalid-token error. *)
Theorem verification_token_redeemed_once (E : Env) (db : Tables)
    (token : string) (now expires_at : Z) (u : User.t) :
  UserDAL.first_user (UserDAL.has_verification_token (hash_token E token)) db
  = Some u ->
  User.is_email_verified u = false ->
  User.email_verification_expires u = Some expires_at ->
  now <= expires_at ->
  (length (filter (UserDAL.has_verification_token (hash_token E token))
             (users db)) <= 1)%nat ->
  let db1 :=
    UserDAL.update_user_where (UserDAL.has_id (User.id u))
      [User.set_is_email_verified true;
       User.set_email_verification_token None;
       User.set_email_verification_expires None;
       User.set_updated_at (Some now)] db in
  serve (verify_email E token now) db
  = (Return (mkEmailVerificationResponse
               "Email verified successfully! Your account is now fully activated."
               true (Some true)), db1)
  /\ (forall x, In x (users db1) -> User.id x = User.id u ->
        User.is_email_verified x = true
        /\ User.email_verification_token x = None
        /\ User.email_verification_expires x = None)
  /\ (forall now2,
        serve (verify_email E token now2) db1
        = (Raise (HTTPException 400 "Invalid or expired verification token"),
           db1)).
Proof.
  intros Hu Hv Hexp Hle Hone db1. split; [| split].
  - unfold verify_email, UserDAL.get_user_by_verification_token. run.
    rewrite Hu. simpl. rewrite Hv. unfold is_token_expired. rewrite Hexp.
    replace (now >? expires_at) with false
      by (symmetry; rewrite Z.gtb_ltb; apply Z.ltb_ge; lia).
    unfold UserDAL.verify_user_email. run. rewrite get_user_str. reflexivity.
  - intros x Hx Hid.
    destruct (updated_rows _ _ _ _ Hx Hid) as (y & _ & ->); [user_row |].
    destruct y. repeat split.
  - intros now2.
    assert (Hnone :
      UserDAL.first_user
        (UserDAL.has_verification_token (hash_token E token)) db1 = None).
    { apply first_user_unmarked; [user_row |].
      intros x Hx Hhx. f_equal.
      apply (at_most_one _ x u Hone); apply filter_In.
      - now split.
      - now apply first_user_in in Hu. }
    unfold verify_email, UserDAL.get_user_by_verification_token. run.
    now rewrite Hnone.
Qed.

(** The theorem at Alice's pending token, presented at the instant 90000,
    the last instant of its validity. *)
Lemma verification_token_redeemed_once_witness :
  UserDAL.first_user
    (UserDAL.has_verification_token (hash_token Demo.env "raw-verify-token"))
    Scenario.db_pending = Some Scenario.alice_pending
  /\ User.is_email_verified Scenario.alice_pending = false
  /\ User.email_verification_expires Scenario.alice_pending = Some 90000
  /\ 90000 <= 90000
  /\ exists db1,
       serve (verify_email Demo.env "raw-verify-token" 90000) Scenario.db_pending
       = (Return (mkEmailVerificationResponse
                    "Email verified successfully! Your account is now fully activated."
                    true (Some true)), db1)
       /\ serve (verify_email Demo.env "raw-verify-token" 90001) db1
          = (Raise (HTTPException 400 "Invalid or expired verification token"),
             db1).
Proof.
  split; [reflexivity | split; [reflexivity | split; [reflexivity |]]].
  split; [lia |].
  destruct (verification_token_redeemed_once Demo.env Scenario.db_pending
              "raw-verify-token" 90000 90000 Scenario.alice_pending
              eq_refl eq_refl eq_refl ltac:(lia) ltac:(vm_compute; lia))
    as (Hok & _ & Hagain).
  eexists. split; [exact Hok | exact (Hagain 90001)].
Defined.

(** A verification token presented after its expiry, or stored without
    one, by an unverified account fails with the expired-token error; the
    failure stores the account without the token and its expiry, and
    changes the verified flag of no account. *)
Theorem expired_verification_token_is_cleared (E : Env) (db : Tables)
    (token : string) (now : Z) (u : User.t) :
  UserDAL.first_user (UserDAL.has_verification_token (hash_token E token)) db
  = Some u ->
  User.is_email_verified u = false ->
  is_token_expired (User.email_verification_expires u) now = true ->
  let db1 :=
    UserDAL.update_user_where (UserDAL.has_id (User.id u))
      [User.set_email_verification_token None;
       User.set_email_verification_expires None;
       User.set_updated_at (Some now)] db in
  serve (verify_email E token now) db
  = (Raise (HTTPException 400
              "Verification token has expired. Please request a new one."),
     db1)
  /\ (forall x, In x (users db1) -> User.id x = User.id u ->
        User.email_verification_token x = None
        /\ User.email_verification_expires x = None)
  /\ map User.is_email_verified (users db1)
     = map User.is_email_verified (users db).
Proof.
  intros Hu Hv Hexp db1. split; [| split].
  - unfold verify_email, UserDAL.get_user_by_verification_token. run.
    rewrite Hu. simpl. rewrite Hv, Hexp.
    unfold UserDAL.clear_email_verification_token. run. rewrite get_user_str.
    reflexivity.
  - intros x Hx Hid.
    destruct (updated_rows _ _ _ _ Hx Hid) as (y & _ & ->); [user_row |].
    destruct y. repeat split.
  - unfold db1, UserDAL.update_user_where. simpl. rewrite map_map.
    apply map_ext. intros x. destruct (UserDAL.has_id (User.id u) x);
      [now destruct x | reflexivity].
Qed.

(** The theorem at Alice's pending token, presented at the instant 90001. *)
Lemma expired_verification_token_is_cleared_witness :
  UserDAL.first_user
    (UserDAL.has_verification_token (hash_token Demo.env "raw-verify-token"))
    Scenario.db_pending = Some Scenario.alice_pending
  /\ User.is_email_verified Scenario.alice_pending = false
  /\ is_token_expired
       (User.email_verification_expires Scenario.alice_pending) 90001 = true
  /\ exists db1,
       serve (verify_email Demo.env "raw-verify-token" 90001) Scenario.db_pending
       = (Raise (HTTPException 400
                   "Verification token has expired. Please request a new one."),
          db1)
       /\ map User.email_verification_token (users db1)
          = [None; None; None; None].
Proof.
  split; [reflexivity | split; [reflexivity | split; [reflexivity |]]].
  eexists. split.
  - exact (proj1 (expired_verification_token_is_cleared Demo.env
                    Scenario.db_pending "raw-verify-token" 90001
                    Scenario.alice_pending eq_refl eq_refl eq_refl)).
  - reflexivity.
Defined.

(** [resend_verification] on the address of an unverified account. *)
Lemma resend_verification_unverified (E : Env) (db : Tables) (email : string)
    (now : Z) (verification_token : string) (u : User.t) :
  Schema.keys_unique db ->
  UserDAL.first_user (UserDAL.has_email email) db = Some u ->
  User.is_email_verified u = false ->
  serve (resend_verification E email now verification_token) db
  = if match User.verification_sent_at u with
       | None => true
       | Some sent_at => now - sent_at >? 5 * 60
       end
    then
      (Return (mkEmailVerificationResponse
                 "Verification email sent successfully. Please check your inbox."
                 true (Some false)),
       UserDAL.update_user_where (UserDAL.has_id (User.id u))
         [User.set_email_verification_token
            (Some (hash_token E verification_token));
          User.set_email_verification_expires (Some (now + 86400));
          User.set_verification_sent_at (Some now);
          User.set_updated_at (Some now)] db)
    else
      (Raise (HTTPException 429
                "Please wait 5 minutes before requesting another verification email."),
       db).
Proof.
  intros Hkeys Hu Hv.
  pose proof (first_user_by_key db u Hkeys (proj1 (first_user_in _ _ _ Hu)))
    as Hkey.
  unfold resend_verification, UserDAL.get_user_by_email. run.
  rewrite Hu. simpl. rewrite Hv.
  unfold UserDAL.can_resend_verification. run. rewrite get_user_str. simpl.
  rewrite Hkey. simpl.
  destruct (User.verification_sent_at u) as [sent_at|]; simpl.
  - destruct (now - sent_at >? 300); simpl; [| reflexivity].
    unfold UserDAL.set_email_verification_token. run. rewrite get_user_str.
    reflexivity.
  - unfold UserDAL.set_email_verification_token. run. rewrite get_user_str.
    reflexivity.
Qed.

(** Let [resend_verification] succeed at [now] for an unverified account.
    Then any earlier sending lay more than five minutes back; a second
    request within the five minutes that follow is refused with 429 and
    stores nothing, and a later one succeeds. *)
Theorem resend_verification_cooldown (E : Env) (db : Tables) (email : string)
    (now now2 : Z) (verification_token second_token : string) (u : User.t)
    (db1 : Tables) (response : EmailVerificationResponse) :
  Schema.keys_unique db ->
  UserDAL.first_user (UserDAL.has_email email) db = Some u ->
  User.is_email_verified u = false ->
  serve (resend_verification E email now verification_token) db
  = (Return response, db1) ->
  (forall sent_at, User.verification_sent_at u = Some sent_at ->
                   300 < now - sent_at)
  /\ (now2 - now <= 300 ->
      serve (resend_verification E email now2 second_token) db1
      = (Raise (HTTPException 429
                  "Please wait 5 minutes before requesting another verification email."),
         db1))
  /\ (300 < now2 - now ->
      exists db2,
        serve (resend_verification E email now2 second_token) db1
        = (Return (mkEmailVerificationResponse
                     "Verification email sent successfully. Please check your inbox."
                     true (Some false)), db2)).
Proof.
  intros Hkeys Hu Hv Hok.
  rewrite (resend_verification_unverified E db email now verification_token u
             Hkeys Hu Hv) in Hok.
  assert (Hsent : forall sent_at, User.verification_sent_at u = Some sent_at ->
                                  300 < now - sent_at).
  { intros sent_at Hs. rewrite Hs in Hok.
    destruct (Z.gtb_spec (now - sent_at) (5 * 60)); [lia | discriminate]. }
  split; [exact Hsent |].
  assert (Hdb1 : db1 = UserDAL.update_user_where (UserDAL.has_id (User.id u))
         [User.set_email_verification_token
            (Some (hash_token E verification_token));
          User.set_email_verification_expires (Some (now + 86400));
          User.set_verification_sent_at (Some now);
          User.set_updated_at (Some now)] db).
  { destruct (match User.verification_sent_at u with
              | None => true | Some s => now - s >? 5 * 60 end);
      [now injection Hok | discriminate]. }
  clear Hok. subst db1.
  set (a := [User.set_email_verification_token _; _; _; _]).
  assert (Hkeys1 : Schema.keys_unique
                     (UserDAL.update_user_where (UserDAL.has_id (User.id u)) a db)).
  { unfold Schema.keys_unique, UserDAL.update_user_where in *. simpl.
    rewrite map_map. erewrite map_ext; [exact Hkeys |].
    intros x. destruct (UserDAL.has_id (User.id u) x); [| reflexivity].
    now destruct x. }
  assert (Hu1 : UserDAL.first_user (UserDAL.has_email email)
                  (UserDAL.update_user_where (UserDAL.has_id (User.id u)) a db)
                = Some (User.values a u)).
  { rewrite first_user_update_stable, Hu by user_row. simpl.
    now rewrite has_id_self. }
  assert (Hv1 : User.is_email_verified (User.values a u) = false)
    by (destruct u; exact Hv).
  assert (Hs1 : User.verification_sent_at (User.values a u) = Some now)
    by (destruct u; reflexivity).
  split.
  - intros Hsoon.
    rewrite (resend_verification_unverified E _ email now2 second_token _
               Hkeys1 Hu1 Hv1), Hs1.
    destruct (Z.gtb_spec (now2 - now) (5 * 60)); [lia | reflexivity].
  - intros Hlate.
    rewrite (resend_verification_unverified E _ email now2 second_token _
               Hkeys1 Hu1 Hv1), Hs1.
    destruct (Z.gtb_spec (now2 - now) (5 * 60)); [| lia].
    eexists. reflexivity.
Qed.

(** The theorem at a link sent to Alice at the instant 1000 and asked for
    again at 1300, the last instant of the cooldown. *)
Lemma resend_verification_cooldown_witness :
  Schema.keys_unique Demo.db
  /\ UserDAL.first_user (UserDAL.has_email "alice@x.com") Demo.db
     = Some Demo.alice
  /\ User.is_email_verified Demo.alice = false
  /\ 1300 - 1000 <= 300
  /\ exists response db1,
       serve (resend_verification Demo.env "alice@x.com" 1000 "raw-1") Demo.db
       = (Return response, db1)
       /\ serve (resend_verification Demo.env "alice@x.com" 1300 "raw-2") db1
          = (Raise (HTTPException 429
                      "Please wait 5 minutes before requesting another verification email."),
             db1).
Proof.
  split; [exact demo_keys_unique |].
  split; [reflexivity | split; [reflexivity | split; [lia |]]].
  do 2 eexists. split; [reflexivity |].
  eapply (proj1 (proj2 (resend_verification_cooldown Demo.env Demo.db
                          "alice@x.com" 1000 1300 "raw-1" "raw-2" Demo.alice
                          _ _ demo_keys_unique eq_refl eq_refl eq_refl))).
  lia.
Defined.

(** A verification token issued by [resend_verification] at [now] to an
    unverified account, its hash stored by no account before, is redeemed by
    [verify_email] at every instant up to [now + 86400], that instant
    included, and the account is then verified; presented later, it fails
    with the expired-token error and the account stays unverified, without
    the token. *)
Theorem verification_round_trip (E : Env) (db : Tables) (email : string)
    (now now2 : Z) (verification_token : string) (u : User.t)
    (db1 : Tables) (response : EmailVerificationResponse) :
  Schema.keys_unique db ->
  UserDAL.first_user (UserDAL.has_email email) db = Some u ->
  User.is_email_verified u = false ->
  (forall x, In x (users db) ->
             UserDAL.has_verification_token
               (hash_token E verification_token) x = false) ->
  serve (resend_verification E email now verification_token) db
  = (Return response, db1) ->
  (now2 <= now + 86400 ->
   exists db2 verified,
     serve (verify_email E verification_token now2) db1
     = (Return (mkEmailVerificationResponse
                  "Email verified successfully! Your account is now fully activated."
                  true (Some true)), db2)
     /\ UserDAL.first_user (UserDAL.has_id (User.id u)) db2 = Some verified
     /\ User.is_email_verified verified = true
     /\ User.email_verification_token verified = None)
  /\ (now + 86400 < now2 ->
      exists db2 unverified,
        serve (verify_email E verification_token now2) db1
        = (Raise (HTTPException 400
                    "Verification token has expired. Please request a new one."),
           db2)
        /\ UserDAL.first_user (UserDAL.has_id (User.id u)) db2
           = Some unverified
        /\ User.is_email_verified unverified = false
        /\ User.email_verification_token unverified = None).
Proof.
  intros Hkeys Hu Hv Hfresh Hok.
  rewrite (resend_verification_unverified E db email now verification_token u
             Hkeys Hu Hv) in Hok.
  assert (Hdb1 : db1 = UserDAL.update_user_where (UserDAL.has_id (User.id u))
         [User.set_email_verification_token
            (Some (hash_token E verification_token));
          User.set_email_verification_expires (Some (now + 86400));
          User.set_verification_sent_at (Some now);
          User.set_updated_at (Some now)] db).
  { destruct (match User.verification_sent_at u with
              | None => true | Some s => now - s >? 5 * 60 end);
      [now injection Hok | discriminate]. }
  clear Hok. subst db1.
  pose proof (first_user_by_key db u Hkeys (proj1 (first_user_in _ _ _ Hu)))
    as Hkey.
  set (a := [User.set_email_verification_token _; _; _; _]).
  assert (Hfound :
    UserDAL.first_user
      (UserDAL.has_verification_token (hash_token E verification_token))
      (UserDAL.update_user_where (UserDAL.has_id (User.id u)) a db)
    = Some (User.values a u)).
  { rewrite first_user_marked, Hkey; [reflexivity | | exact Hfresh].
    intros [? ? ? ? ? ? ? ? ? ? ? ? ? ? ? ? ? ? ?].
    unfold UserDAL.has_verification_token. simpl. apply String.eqb_refl. }
  assert (Hkey1 :
    UserDAL.first_user (UserDAL.has_id (User.id u))
      (UserDAL.update_user_where (UserDAL.has_id (User.id u)) a db)
    = Some (User.values a u))
    by (apply first_user_by_key_updated; [user_row | exact Hkey]).
  assert (Hv1 : User.is_email_verified (User.values a u) = false)
    by (destruct u; exact Hv).
  assert (Hexp : User.email_verification_expires (User.values a u)
                 = Some (now + 86400)) by (destruct u; reflexivity).
  assert (Hid : User.id (User.values a u) = User.id u)
    by (destruct u; reflexivity).
  set (db1 := UserDAL.update_user_where _ a db) in *.
  set (u1 := User.values a u) in *.
  split.
  - intros Hin_time.
    unfold verify_email, UserDAL.get_user_by_verification_token. run.
    rewrite Hfound. simpl. rewrite Hv1. unfold is_token_expired. rewrite Hexp.
    replace (now2 >? now + 86400) with false
      by (symmetry; rewrite Z.gtb_ltb; apply Z.ltb_ge; lia).
    unfold UserDAL.verify_user_email. run. rewrite get_user_str. simpl.
    do 2 eexists. split; [reflexivity |]. rewrite Hid. split.
    + apply first_user_by_key_updated; [user_row | exact Hkey1].
    + now destruct u1.
  - intros Hlate.
    unfold verify_email, UserDAL.get_user_by_verification_token. run.
    rewrite Hfound. simpl. rewrite Hv1. unfold is_token_expired. rewrite Hexp.
    replace (now2 >? now + 86400) with true
      by (symmetry; apply Z.gtb_lt; lia).
    unfold UserDAL.clear_email_verification_token. run. rewrite get_user_str.
    simpl. do 2 eexists. split; [reflexivity |]. rewrite Hid. split.
    + apply first_user_by_key_updated; [user_row | exact Hkey1].
    + destruct u1. simpl in *. now split.
Qed.

(** The theorem at a link sent to Alice at the instant 1000 and followed at
    87400, the last instant of its validity. *)
Lemma verification_round_trip_witness :
  Schema.keys_unique Demo.db
  /\ UserDAL.first_user (UserDAL.has_email "alice@x.com") Demo.db
     = Some Demo.alice
  /\ User.is_email_verified Demo.alice = false
  /\ 87400 <= 1000 + 86400
  /\ exists response db1 db2,
       serve (resend_verification Demo.env "alice@x.com" 1000 "raw-1") Demo.db
       = (Return response, db1)
       /\ serve (verify_email Demo.env "raw-1" 87400) db1
          = (Return (mkEmailVerificationResponse
                       "Email verified successfully! Your account is now fully activated."
                       true (Some true)), db2).
Proof.
  split; [exact demo_keys_unique |].
  split; [reflexivity | split; [reflexivity | split; [lia |]]].
  destruct (proj1 (verification_round_trip Demo.env Demo.db "alice@x.com"
                     1000 87400 "raw-1" Demo.alice
                     (snd (serve (resend_verification Demo.env "alice@x.com"
                                    1000 "raw-1") Demo.db))
                     (mkEmailVerificationResponse
                        "Verification email sent successfully. Please check your inbox."
                        true (Some false))
                     demo_keys_unique eq_refl eq_refl
                     ltac:(intros x [<- | [<- | [<- | [<- | []]]]]; reflexivity)
                     eq_refl) ltac:(lia))
    as (db2 & verified & Hok & _).
  do 3 eexists. split; [reflexivity | exact Hok].
Defined.

End VerificationFlow.

(** ** Normal form of addresses and registration (routers/auth_router.py) *)

Module AddressFacts.
Import Run Steps.

Lemma lower_char_idem (c : ascii) :
  Str.lower_char (Str.lower_char c) = Str.lower_char c.
Proof. destruct c as [[] [] [] [] [] [] [] []]; reflexivity. Qed.

Lemma isspace_lower_char (c : ascii) :
  Str.isspace (Str.lower_char c) = Str.isspace c.
Proof. destruct c as [[] [] [] [] [] [] [] []]; reflexivity. Qed.

Lemma lower_idem (s : string) : Str.lower (Str.lower s) = Str.lower s.
Proof.
  induction s as [|c s IH]; simpl; [reflexivity |].
  now rewrite lower_char_idem, IH.
Qed.

Lemma lower_lstrip (s : string) :
  Str.lower (Str.lstrip s) = Str.lstrip (Str.lower s).
Proof.
  induction s as [|c s IH]; simpl; [reflexivity |].
  rewrite isspace_lower_char. now destruct (Str.isspace c).
Qed.

Lemma lower_rstrip (s : string) :
  Str.lower (Str.rstrip s) = Str.rstrip (Str.lower s).
Proof.
  induction s as [|c s IH]; simpl; [reflexivity |].
  rewrite <- IH, isspace_lower_char.
  destruct (Str.rstrip s); simpl; [now destruct (Str.isspace c) | reflexivity].
Qed.

Lemma rstrip_idem (s : string) : Str.rstrip (Str.rstrip s) = Str.rstrip s.
Proof.
  induction s as [|c s IH]; simpl; [reflexivity |].
  destruct (Str.rstrip s) as [|d kept] eqn:Hr.
  - destruct (Str.isspace c) eqn:Hc; simpl; [reflexivity | now rewrite Hc].
  - change (Str.rstrip (String c (String d kept)))
      with (match Str.rstrip (String d kept) with
            | EmptyString =>
                if Str.isspace c then EmptyString else String c EmptyString
            | String e k => String c (String e k)
            end).
    now rewrite IH.
Qed.

(** A string that does not start with a blank stays so under [rstrip]. *)
Lemma lstrip_rstrip_fixed (s : string) :
  Str.lstrip s = s -> Str.lstrip (Str.rstrip s) = Str.rstrip s.
Proof.
  destruct s as [|c s]; simpl; [reflexivity |].
  destruct (Str.isspace c) eqn:Hc.
  - intros H. exfalso.
    assert (Hlen : forall t, (String.length (Str.lstrip t) <= String.length t)%nat).
    { induction t as [|d t IH]; simpl; [lia |].
      destruct (Str.isspace d); simpl; lia. }
    pose proof (Hlen s) as Hs. rewrite H in Hs. simpl in Hs. lia.
  - intros _. destruct (Str.rstrip s); simpl; now rewrite Hc.
Qed.

Lemma lstrip_idem (s : string) : Str.lstrip (Str.lstrip s) = Str.lstrip s.
Proof.
  induction s as [|c s IH]; simpl; [reflexivity |].
  destruct (Str.isspace c) eqn:Hc; [exact IH | simpl; now rewrite Hc].
Qed.

Lemma strip_idem (s : string) : Str.strip (Str.strip s) = Str.strip s.
Proof.
  unfold Str.strip.
  rewrite (lstrip_rstrip_fixed (Str.lstrip s) (lstrip_idem s)).
  apply rstrip_idem.
Qed.

Lemma lower_strip (s : string) :
  Str.lower (Str.strip s) = Str.strip (Str.lower s).
Proof. unfold Str.strip. now rewrite lower_rstrip, lower_lstrip. Qed.

Lemma normal_form (v : string) : Schema.normalised (Str.strip (Str.lower v)).
Proof.
  unfold Schema.normalised.
  now rewrite lower_strip, lower_idem, strip_idem.
Qed.

End AddressFacts.

Module RegistrationFlow.
Import Run Steps AddressFacts.
Import auth_router.

(** The two outcomes of [register]. *)
Lemma register_outcome (E : Env) (user_data : UserRegister.t) (now : Z)
    (salt : string) (db : Tables) :
  (existsb (UserDAL.has_email (UserRegister.email user_data)) (users db) = true
   /\ serve (register E user_data now salt) db
      = (Raise (HTTPException 400 "Email already registered"), db))
  \/ (existsb (UserDAL.has_email (UserRegister.email user_data)) (users db)
      = false
      /\ let new_user :=
           User.mk (user_id_seq db + 1) (UserRegister.name user_data)
             (UserRegister.email user_data) (UserRegister.mobile user_data)
             "user"
             (auth.hash_password E (UserRegister.password user_data) salt)
             ACTIVE false (Some now) (Some now) None
             None None None None None None None None in
         serve (register E user_data now salt) db
         = (Return (UserResponse_of (User.to_dict new_user)),
            mkTables (users db ++ [new_user]) (user_sessions db)
              (user_id_seq db + 1) (session_id_seq db))).
Proof.
  unfold register, UserDAL.get_user_by_email. run.
  destruct (UserDAL.first_user _ db) as [u|] eqn:Hf; simpl.
  - left. split; [| reflexivity].
    apply first_user_in in Hf as [Hin Hp].
    apply existsb_exists. now exists u.
  - right. apply first_user_none in Hf. split; [exact Hf |].
    unfold UserDAL.create_user, UserDAL.insert_user. simpl. rewrite Hf.
    reflexivity.
Qed.

(** An accepted registration reaches [register] with a normalised
    address. *)
Lemma validate_normalised (name email mobile password : string)
    (user_data : UserRegister.t) :
  UserRegister.validate name email mobile password = Some user_data ->
  Schema.normalised (UserRegister.email user_data)
  /\ UserRegister.email user_data = Str.strip (Str.lower email)
  /\ UserRegister.password user_data = password.
Proof.
  intros H.
  destruct (RegisterFacts.validate_normalises_email _ _ _ _ _ H) as [He Hp].
  rewrite He. split; [apply normal_form | now split].
Qed.

Lemma find_snoc {A : Type} (p : A -> bool) (l : list A) (a : A) :
  existsb p l = false -> p a = true -> find p (l ++ [a]) = Some a.
Proof.
  intros Hl Ha. induction l as [|x l IH]; simpl in *.
  - now rewrite Ha.
  - apply orb_false_iff in Hl as [Hx Hl]. rewrite Hx. now apply IH.
Qed.

Lemma NoDup_snoc {A : Type} (l : list A) (a : A) :
  NoDup l -> ~ In a l -> NoDup (l ++ [a]).
Proof.
  intros Hl Ha. apply NoDup_app; [exact Hl | repeat constructor; intros [] |].
  intros x Hx [<- | []]. contradiction.
Qed.

(** [register] keeps the constraints of the schema, whatever it answers:
    keys stay distinct and drawn from the sequence, and addresses stay
    distinct; and since an accepted request carries a normalised address,
    it keeps every stored address normalised. *)
Theorem register_keeps_schema (E : Env) (name email mobile password : string)
    (user_data : UserRegister.t) (now : Z) (salt : string) (db : Tables) :
  UserRegister.validate name email mobile password = Some user_data ->
  (Schema.holds db ->
   Schema.holds (snd (serve (register E user_data now salt) db)))
  /\ (Schema.emails_normalised db ->
      Schema.emails_normalised (snd (serve (register E user_data now salt) db))).
Proof.
  intros Hvalid.
  destruct (validate_normalised _ _ _ _ _ Hvalid) as (Hnorm & _ & _).
  destruct (register_outcome E user_data now salt db) as [[_ ->] | [Hfree Hok]];
    [simpl; split; auto |].
  cbv zeta in Hok. rewrite Hok. simpl. split.
  - intros (Hkeys & Hissued & Hemails). split; [| split].
    + unfold Schema.keys_unique in *. simpl. rewrite map_app. simpl.
      apply NoDup_snoc; [exact Hkeys |].
      intros Hin. apply in_map_iff in Hin as (x & Hx & Hin).
      apply Hissued in Hin. lia.
    + unfold Schema.keys_issued in *. simpl. intros u Hin.
      apply in_app_or in Hin as [Hin | [<- | []]]; simpl; [| lia].
      apply Hissued in Hin. lia.
    + unfold Schema.emails_unique in *. simpl. rewrite map_app. simpl.
      apply NoDup_snoc; [exact Hemails |].
      intros Hin. apply in_map_iff in Hin as (x & Hx & Hin).
      assert (Ht : existsb (UserDAL.has_email (UserRegister.email user_data))
                     (users db) = true).
      { apply existsb_exists. exists x. split; [exact Hin |].
        unfold UserDAL.has_email. rewrite Hx. apply String.eqb_refl. }
      congruence.
  - intros Hall. unfold Schema.emails_normalised in *. simpl.
    intros u Hin. apply in_app_or in Hin as [Hin | [<- | []]]; auto.
Qed.

(** The theorem at the registration of a fifth account on the
    deployment. *)
Lemma register_keeps_schema_witness :
  UserRegister.validate "Dave" "Dave@X.com" "12345678" "D4ve!pass"
  = Some (UserRegister.mk "Dave" "dave@x.com" "12345678" "D4ve!pass")
  /\ Schema.holds Demo.db
  /\ Schema.holds
       (snd (serve (register Demo.env
                      (UserRegister.mk "Dave" "dave@x.com" "12345678"
                         "D4ve!pass") 5000 "salt") Demo.db)).
Proof.
  assert (Hschema : Schema.holds Demo.db).
  { split; [exact Marks.demo_keys_unique | split].
    - intros u [<- | [<- | [<- | [<- | []]]]]; simpl; lia.
    - unfold Schema.emails_unique. simpl.
      repeat (constructor; [simpl; intuition discriminate |]). constructor. }
  split; [reflexivity | split; [exact Hschema |]].
  exact (proj1 (register_keeps_schema Demo.env "Dave" "Dave@X.com" "12345678"
                  "D4ve!pass"
                  (UserRegister.mk "Dave" "dave@x.com" "12345678" "D4ve!pass")
                  5000 "salt" Demo.db eq_refl) Hschema).
Defined.

(** An account that [register] has created logs in with its password and
    any spelling of its address that differs in case only, provided bcrypt
    verifies the hash it made and the token identifier drawn is new. *)
Theorem registered_account_logs_in (E : Env) (name email mobile password : string)
    (user_data : UserRegister.t) (now now2 : Z) (salt : string)
    (db db1 : Tables) (response : UserResponse)
    (spelling ip user_agent token_id : string) :
  UserRegister.validate name email mobile password = Some user_data ->
  serve (register E user_data now salt) db = (Return response, db1) ->
  auth.verify_password E password (auth.hash_password E password salt) = true ->
  Str.lower spelling = Str.lower email ->
  existsb (fun r => String.eqb (UserSession.token_id r) token_id)
    (user_sessions db) = false ->
  exists granted db2,
    serve (login E (UserLogin.validate spelling password) ip user_agent now2
             token_id) db1
    = (Return granted, db2)
    /\ expires_in granted = ACCESS_TOKEN_EXPIRE_MINUTES E * 60
    /\ token_type granted = "bearer".
Proof.
  intros Hvalid Hreg Hbcrypt Hspell Hfresh.
  destruct (validate_normalised _ _ _ _ _ Hvalid) as (_ & Hemail & Hpw).
  destruct (register_outcome E user_data now salt db) as [[_ Hconf] | [Hfree Hok]];
    [rewrite Hconf in Hreg; discriminate |].
  cbv zeta in Hok. rewrite Hok in Hreg. injection Hreg as _ <-.
  unfold login, UserDAL.authenticate_user, UserDAL.get_user_by_email. run.
  unfold UserLogin.validate_email_field. rewrite Hspell, <- Hemail.
  assert (Hfound :
    UserDAL.first_user (UserDAL.has_email (UserRegister.email user_data))
      (mkTables
         (users db ++
          [User.mk (user_id_seq db + 1) (UserRegister.name user_data)
             (UserRegister.email user_data) (UserRegister.mobile user_data)
             "user"
             (auth.hash_password E (UserRegister.password user_data) salt)
             ACTIVE false (Some now) (Some now) None
             None None None None None None None None])
         (user_sessions db) (user_id_seq db + 1) (session_id_seq db))
    = Some (User.mk (user_id_seq db + 1) (UserRegister.name user_data)
              (UserRegister.email user_data) (UserRegister.mobile user_data)
              "user"
              (auth.hash_password E (UserRegister.password user_data) salt)
              ACTIVE false (Some now) (Some now) None
              None None None None None None None None)).
  { unfold UserDAL.first_user. cbn [users].
    apply find_snoc; [exact Hfree |].
    unfold UserDAL.has_email. cbn [User.email]. apply String.eqb_refl. }
  rewrite Hfound. simpl. rewrite Hpw, Hbcrypt. simpl.
  unfold UserDAL.update_last_login. run.
  unfold UserDAL.create_session. simpl. rewrite Hfresh. simpl.
  do 2 eexists. split; [reflexivity | split; reflexivity].
Qed.

(** The theorem at Dave's registration, followed by a login with his
    address in capitals. *)
Lemma registered_account_logs_in_witness :
  UserRegister.validate "Dave" "Dave@X.com" "12345678" "D4ve!pass"
  = Some (UserRegister.mk "Dave" "dave@x.com" "12345678" "D4ve!pass")
  /\ auth.verify_password Demo.env "D4ve!pass"
       (auth.hash_password Demo.env "D4ve!pass" "salt") = true
  /\ Str.lower "DAVE@X.COM" = Str.lower "Dave@X.com"
  /\ exists response db1 granted db2,
       serve (register Demo.env
                (UserRegister.mk "Dave" "dave@x.com" "12345678" "D4ve!pass")
                5000 "salt") Demo.db
       = (Return response, db1)
       /\ serve (login Demo.env (UserLogin.validate "DAVE@X.COM" "D4ve!pass")
                   "10.0.0.1" "curl" 6000 "tid-9") db1
          = (Return granted, db2).
Proof.
  split; [reflexivity | split; [reflexivity | split; [reflexivity |]]].
  destruct (registered_account_logs_in Demo.env "Dave" "Dave@X.com" "12345678"
              "D4ve!pass"
              (UserRegister.mk "Dave" "dave@x.com" "12345678" "D4ve!pass")
              5000 6000 "salt" Demo.db
              (snd (serve (register Demo.env
                             (UserRegister.mk "Dave" "dave@x.com" "12345678"
                                "D4ve!pass") 5000 "salt") Demo.db))
              (UserResponse_of
                 (User.to_dict
                    (User.mk 5 "Dave" "dave@x.com" "12345678" "user"
                       (auth.hash_password Demo.env "D4ve!pass" "salt")
                       ACTIVE false (Some 5000) (Some 5000) None
                       None None None None None None None None)))
              "DAVE@X.COM" "10.0.0.1" "curl" "tid-9"
              eq_refl eq_refl eq_refl eq_refl eq_refl)
    as (granted & db2 & Hlogin & _).
  do 4 eexists. split; [reflexivity | exact Hlogin].
Defined.

End RegistrationFlow.

(** ** The default lifetime of a token (utils/auth.py) *)

Module IssueFacts.
Import Run Steps.



End IssueFacts.

(** ** The pattern of [validate_email] (utils/auth.py) *)

Module PatternFacts.
Import Run Steps AddressFacts.
Import Address.
Import auth_router.

Lemma fullmatch_Void (s : string) : Re.fullmatch Re.Void s = false.
Proof. induction s as [|c s IH]; simpl; auto. Qed.

Lemma fullmatch_Eps (s : string) : Re.fullmatch Re.Eps s = true <-> s = "".
Proof.
  destruct s as [|c s]; simpl; [tauto |].
  rewrite fullmatch_Void. split; discriminate.
Qed.

Lemma fullmatch_Alt (r1 r2 : Re.regex) (s : string) :
  Re.fullmatch (Re.Alt r1 r2) s = Re.fullmatch r1 s || Re.fullmatch r2 s.
Proof. revert r1 r2. induction s as [|c s IH]; intros r1 r2; simpl; auto. Qed.

Lemma fullmatch_Seq (r1 r2 : Re.regex) (s : string) :
  Re.fullmatch (Re.Seq r1 r2) s = true
  <-> exists s1 s2, s = s1 ++ s2 /\ Re.fullmatch r1 s1 = true
                    /\ Re.fullmatch r2 s2 = true.
Proof.
  revert r1 r2. induction s as [|c s IH]; intros r1 r2.
  - simpl. rewrite andb_true_iff. split.
    + intros [H1 H2]. exists "", "". auto.
    + intros (s1 & s2 & Hs & H1 & H2).
      destruct s1; [| discriminate]. destruct s2; [| discriminate]. auto.
  - simpl. destruct (Re.nullable r1) eqn:Hn.
    + rewrite fullmatch_Alt, orb_true_iff, IH. split.
      * intros [(s1 & s2 & -> & H1 & H2) | H].
        -- exists (String c s1), s2. auto.
        -- exists "", (String c s). auto.
      * intros (s1 & s2 & Hs & H1 & H2). destruct s1 as [|d s1].
        -- simpl in Hs. subst s2. right. exact H2.
        -- simpl in Hs. injection Hs as <- ->. left. exists s1, s2. auto.
    + rewrite IH. split.
      * intros (s1 & s2 & -> & H1 & H2). exists (String c s1), s2. auto.
      * intros (s1 & s2 & Hs & H1 & H2). destruct s1 as [|d s1].
        -- simpl in H1. congruence.
        -- simpl in Hs. injection Hs as <- ->. exists s1, s2. auto.
Qed.

Lemma fullmatch_Seq_Void (r : Re.regex) (s : string) :
  Re.fullmatch (Re.Seq Re.Void r) s = false.
Proof. induction s as [|c s IH]; simpl; auto. Qed.

Lemma fullmatch_Seq_Eps (r : Re.regex) (s : string) :
  Re.fullmatch (Re.Seq Re.Eps r) s = Re.fullmatch r s.
Proof.
  destruct s as [|c s]; simpl; [reflexivity |].
  now rewrite fullmatch_Alt, fullmatch_Seq_Void.
Qed.

Lemma fullmatch_Cls_Seq (k : ascii -> bool) (r : Re.regex) (c : ascii)
    (s : string) :
  Re.fullmatch (Re.Seq (Re.Cls k) r) (String c s) = k c && Re.fullmatch r s.
Proof.
  simpl. destruct (k c); simpl;
    [apply fullmatch_Seq_Eps | apply fullmatch_Seq_Void].
Qed.

Lemma fullmatch_Star_Cls (k : ascii -> bool) (s : string) :
  Re.fullmatch (Re.Star (Re.Cls k)) s = all_in k s.
Proof.
  induction s as [|c s IH]; [reflexivity |].
  change (Re.fullmatch (Re.Star (Re.Cls k)) (String c s))
    with (Re.fullmatch (Re.Seq (if k c then Re.Eps else Re.Void)
                          (Re.Star (Re.Cls k))) s).
  simpl. destruct (k c); simpl;
    [rewrite fullmatch_Seq_Eps; exact IH | apply fullmatch_Seq_Void].
Qed.

Lemma fullmatch_Plus_Cls (k : ascii -> bool) (s : string) :
  Re.fullmatch (Re.Plus (Re.Cls k)) s = true
  <-> s <> "" /\ all_in k s = true.
Proof.
  unfold Re.Plus. destruct s as [|c s].
  - simpl. split; [discriminate | intros [H _]; now elim H].
  - rewrite fullmatch_Cls_Seq, fullmatch_Star_Cls. simpl.
    split; [intros H; split; [discriminate | exact H] | tauto].
Qed.

Lemma fullmatch_AtLeast2_Cls (k : ascii -> bool) (s : string) :
  Re.fullmatch (Re.AtLeast2 (Re.Cls k)) s = true
  <-> (2 <= String.length s)%nat /\ all_in k s = true.
Proof.
  unfold Re.AtLeast2. destruct s as [|a [|b s]].
  - simpl. split; [discriminate | intros [H _]; lia].
  - rewrite fullmatch_Cls_Seq. simpl. rewrite andb_false_r.
    split; [discriminate | intros [H _]; lia].
  - rewrite !fullmatch_Cls_Seq, fullmatch_Star_Cls. simpl.
    split; [intros H; split; [lia | exact H] | tauto].
Qed.

Lemma fullmatch_Chr (c : ascii) (s : string) :
  Re.fullmatch (Re.Chr c) s = true <-> s = String c "".
Proof.
  unfold Re.Chr. destruct s as [|d s]; simpl; [split; discriminate |].
  destruct (Ascii.eqb_spec c d) as [-> | Hne].
  - rewrite fullmatch_Eps. split; [now intros -> | congruence].
  - rewrite fullmatch_Void. split; [discriminate | congruence].
Qed.

(** The words of the pattern of [validate_email]. *)
Lemma email_pattern_words (s : string) :
  Re.fullmatch auth.email_pattern s = true <-> well_formed s.
Proof.
  unfold auth.email_pattern, well_formed. split.
  - intros H.
    apply fullmatch_Seq in H as (l & s1 & -> & Hl & H).
    apply fullmatch_Seq in H as (a & s2 & -> & Ha & H).
    apply fullmatch_Seq in H as (d & s3 & -> & Hd & H).
    apply fullmatch_Seq in H as (p & t & -> & Hp & Ht).
    apply fullmatch_Chr in Ha, Hp. subst a p.
    apply fullmatch_Plus_Cls in Hl as [Hl1 Hl2], Hd as [Hd1 Hd2].
    apply fullmatch_AtLeast2_Cls in Ht as [Ht1 Ht2].
    exists l, d, t. repeat split; assumption.
  - intros (l & d & t & -> & Hl1 & Hl2 & Hd1 & Hd2 & Ht1 & Ht2).
    apply fullmatch_Seq. exists l, ("@" ++ d ++ "." ++ t). split; [reflexivity |].
    split; [apply fullmatch_Plus_Cls; auto |].
    apply fullmatch_Seq. exists "@", (d ++ "." ++ t). split; [reflexivity |].
    split; [now apply fullmatch_Chr |].
    apply fullmatch_Seq. exists d, ("." ++ t). split; [reflexivity |].
    split; [apply fullmatch_Plus_Cls; auto |].
    apply fullmatch_Seq. exists ".", t. split; [reflexivity |].
    split; [now apply fullmatch_Chr | apply fullmatch_AtLeast2_Cls; auto].
Qed.

Lemma drop_final_newline_app (body : string) :
  Re.drop_final_newline (body ++ String Re.newline "") = Some body.
Proof.
  induction body as [|c body IH]; [reflexivity |].
  simpl. destruct (body ++ String Re.newline "") as [|d rest] eqn:Hrest.
  - destruct body; discriminate.
  - now rewrite IH.
Qed.

Lemma drop_final_newline_spec (s body : string) :
  Re.drop_final_newline s = Some body <-> s = body ++ String Re.newline "".
Proof.
  split; [| intros ->; apply drop_final_newline_app].
  revert body. induction s as [|c s IH]; intros body; [discriminate |].
  destruct s as [|d s].
  - simpl. destruct (Ascii.eqb_spec c Re.newline) as [-> | Hne];
      [now intros [= <-] | discriminate].
  - change (Re.drop_final_newline (String c (String d s)))
      with (option_map (String c) (Re.drop_final_newline (String d s))).
    destruct (Re.drop_final_newline (String d s)) as [b |]; [| discriminate].
    intros [= <-]. simpl. f_equal. now apply IH.
Qed.

(** The two ways in which [validate_email] accepts, and the first of them
    read backwards. *)
Lemma accepted_cases (email : string) :
  fst (auth.validate_email email) = true ->
  well_formed email
  \/ exists body, email = body ++ String Re.newline "" /\ well_formed body.
Proof.
  unfold auth.validate_email, Re.match_anchored.
  destruct (Re.fullmatch auth.email_pattern email) eqn:Hfull; simpl.
  - intros _. left. now apply email_pattern_words.
  - destruct (Re.drop_final_newline email) as [body |] eqn:Hdrop;
      [| discriminate].
    destruct (Re.fullmatch auth.email_pattern body) eqn:Hbody;
      [| discriminate].
    intros _. right. exists body.
    split; [now apply drop_final_newline_spec | now apply email_pattern_words].
Qed.

Lemma well_formed_accepted (email : string) :
  well_formed email -> fst (auth.validate_email email) = true.
Proof.
  intros H. apply email_pattern_words in H.
  unfold auth.validate_email, Re.match_anchored. now rewrite H.
Qed.

(** [validate_email] accepts exactly the well-formed addresses and the
    well-formed addresses followed by one newline, which the dollar of the
    pattern lets through. *)
Theorem validate_email_accepts (email : string) :
  fst (auth.validate_email email) = true
  <-> well_formed email
      \/ exists body, email = body ++ String Re.newline "" /\ well_formed body.
Proof.
  unfold auth.validate_email, Re.match_anchored.
  destruct (Re.fullmatch auth.email_pattern email) eqn:Hfull; simpl.
  - apply email_pattern_words in Hfull. tauto.
  - assert (Hnot : ~ well_formed email).
    { intros H. apply email_pattern_words in H. congruence. }
    destruct (Re.drop_final_newline email) as [body |] eqn:Hdrop.
    + apply drop_final_newline_spec in Hdrop.
      destruct (Re.fullmatch auth.email_pattern body) eqn:Hbody; simpl.
      * apply email_pattern_words in Hbody. split; [| reflexivity].
        intros _. right. exists body. auto.
      * split; [discriminate |]. intros [H | (b & Hb & H)]; [tauto |].
        assert (b = body).
        { apply drop_final_newline_spec in Hb.
          apply drop_final_newline_spec in Hdrop. congruence. }
        subst b. apply email_pattern_words in H. congruence.
    + simpl. split; [discriminate |]. intros [H | (b & Hb & H)]; [tauto |].
      apply drop_final_newline_spec in Hb. congruence.
Qed.

Lemma append_assoc (a b c : string) : (a ++ b) ++ c = a ++ (b ++ c).
Proof. induction a as [|x a IH]; simpl; [reflexivity | now rewrite IH]. Qed.

Lemma lower_app (a b : string) :
  Str.lower (a ++ b) = Str.lower a ++ Str.lower b.
Proof. induction a as [|x a IH]; simpl; [reflexivity | now rewrite IH]. Qed.

Lemma lower_length (s : string) :
  String.length (Str.lower s) = String.length s.
Proof. induction s as [|c s IH]; simpl; [reflexivity | now rewrite IH]. Qed.

(** The three classes of the pattern are closed under [lower], and none
    holds a blank. *)
Lemma local_char_lower (c : ascii) :
  local_char c = true -> local_char (Str.lower_char c) = true.
Proof. destruct c as [[] [] [] [] [] [] [] []]; intros H; exact H || reflexivity. Qed.

Lemma domain_char_lower (c : ascii) :
  domain_char c = true -> domain_char (Str.lower_char c) = true.
Proof. destruct c as [[] [] [] [] [] [] [] []]; intros H; exact H || reflexivity. Qed.

Lemma letter_lower (c : ascii) :
  letter c = true -> letter (Str.lower_char c) = true.
Proof. destruct c as [[] [] [] [] [] [] [] []]; intros H; exact H || reflexivity. Qed.

Lemma local_char_no_blank (c : ascii) :
  local_char c = true -> Str.isspace c = false.
Proof. destruct c as [[] [] [] [] [] [] [] []]; intros H; reflexivity || discriminate H. Qed.

Lemma letter_no_blank (c : ascii) :
  letter c = true -> Str.isspace c = false.
Proof. destruct c as [[] [] [] [] [] [] [] []]; intros H; reflexivity || discriminate H. Qed.

Lemma all_in_lower (k : ascii -> bool) (s : string) :
  (forall c, k c = true -> k (Str.lower_char c) = true) ->
  all_in k s = true -> all_in k (Str.lower s) = true.
Proof.
  intros Hk. induction s as [|c s IH]; simpl; [reflexivity |].
  rewrite !andb_true_iff. intros [Hc Hs]. auto.
Qed.

Lemma well_formed_lower (e : string) :
  well_formed e -> well_formed (Str.lower e).
Proof.
  intros (l & d & t & -> & Hl1 & Hl2 & Hd1 & Hd2 & Ht1 & Ht2).
  exists (Str.lower l), (Str.lower d), (Str.lower t).
  split; [now rewrite !lower_app |].
  split; [destruct l; [now elim Hl1 | discriminate] |].
  split; [apply all_in_lower; [exact local_char_lower | exact Hl2] |].
  split; [destruct d; [now elim Hd1 | discriminate] |].
  split; [apply all_in_lower; [exact domain_char_lower | exact Hd2] |].
  split; [now rewrite lower_length |].
  apply all_in_lower; [exact letter_lower | exact Ht2].
Qed.

Lemma rstrip_keeps (s : string) (c : ascii) :
  Str.isspace c = false ->
  Str.rstrip (s ++ String c "") = s ++ String c "".
Proof.
  intros Hc. induction s as [|d s IH]; simpl; [now rewrite Hc |].
  rewrite IH. destruct (s ++ String c "") eqn:Hs; [| reflexivity].
  destruct s; discriminate.
Qed.

Lemma rstrip_drops (s : string) (c : ascii) :
  Str.isspace c = true -> Str.rstrip (s ++ String c "") = Str.rstrip s.
Proof.
  intros Hc. induction s as [|d s IH]; simpl; [now rewrite Hc |].
  now rewrite IH.
Qed.

Lemma last_char (k : ascii -> bool) (s : string) :
  s <> "" -> all_in k s = true ->
  exists s' c, s = s' ++ String c "" /\ k c = true.
Proof.
  induction s as [|d s IH]; [intros H; now elim H |].
  intros _. simpl. rewrite andb_true_iff. intros [Hd Hs].
  destruct s as [|e s].
  - exists "", d. auto.
  - destruct IH as (s' & c & Heq & Hc); [discriminate | exact Hs |].
    exists (String d s'), c. simpl. now rewrite Heq.
Qed.

(** A well-formed address starts and ends with no blank. *)
Lemma well_formed_stripped (e : string) (tail : string) :
  well_formed e ->
  Str.lstrip (e ++ tail) = e ++ tail /\ Str.rstrip e = e.
Proof.
  intros (l & d & t & -> & Hl1 & Hl2 & Hd1 & Hd2 & Ht1 & Ht2). split.
  - destruct l as [|c l]; [now elim Hl1 |].
    simpl in Hl2. apply andb_true_iff in Hl2 as [Hc _].
    simpl. now rewrite (local_char_no_blank c Hc).
  - destruct (last_char letter t) as (t' & c & -> & Hc);
      [destruct t; [simpl in Ht1; lia | discriminate] | exact Ht2 |].
    rewrite <- !append_assoc.
    apply rstrip_keeps, letter_no_blank, Hc.
Qed.

Lemma append_nil_r (s : string) : s ++ "" = s.
Proof. induction s as [|c s IH]; simpl; [reflexivity | now rewrite IH]. Qed.

(** The address that the request model of [register] hands on is well
    formed, the newline that the pattern may have let through being
    stripped, and in lower case; presented again, it is accepted and handed
    on as it is. *)
Theorem accepted_address_is_well_formed (v e : string) :
  UserRegister.validate_email_field v = Some e ->
  well_formed e
  /\ Str.lower e = e
  /\ UserRegister.validate_email_field e = Some e.
Proof.
  unfold UserRegister.validate_email_field at 1.
  destruct (auth.validate_email v) as [is_valid message] eqn:Hv.
  destruct is_valid; [| discriminate]. simpl. intros [= <-].
  assert (Hok : fst (auth.validate_email v) = true) by now rewrite Hv.
  apply accepted_cases in Hok.
  assert (Hbody : exists body,
             well_formed body /\ Str.strip (Str.lower v) = Str.lower body).
  { destruct Hok as [Hwf | (body & -> & Hwf)].
    - exists v. split; [exact Hwf |].
      apply well_formed_lower in Hwf.
      destruct (well_formed_stripped _ "" Hwf) as [Hl Hr].
      rewrite append_nil_r in Hl. unfold Str.strip. now rewrite Hl.
    - exists body. split; [exact Hwf |].
      apply well_formed_lower in Hwf.
      rewrite lower_app.
      change (Str.lower (String Re.newline "")) with (String Re.newline "").
      destruct (well_formed_stripped _ (String Re.newline "") Hwf) as [Hl Hr].
      unfold Str.strip. rewrite Hl, rstrip_drops by reflexivity. exact Hr. }
  destruct Hbody as (body & Hwf & ->).
  pose proof (well_formed_lower _ Hwf) as Hlow.
  split; [exact Hlow |]. split; [apply lower_idem |].
  unfold UserRegister.validate_email_field.
  destruct (auth.validate_email (Str.lower body)) as [ok msg] eqn:Hagain.
  assert (Hyes : fst (auth.validate_email (Str.lower body)) = true)
    by (apply well_formed_accepted, Hlow).
  rewrite Hagain in Hyes. simpl in Hyes. subst ok. simpl.
  rewrite lower_idem.
  destruct (well_formed_stripped _ "" Hlow) as [Hl Hr].
  rewrite append_nil_r in Hl. unfold Str.strip. now rewrite Hl, Hr.
Qed.

(** The theorem at an address with capitals and a final newline. *)
Lemma accepted_address_is_well_formed_witness :
  UserRegister.validate_email_field ("Dave@X.com" ++ String Re.newline "")
  = Some "dave@x.com"
  /\ well_formed "dave@x.com".
Proof.
  split; [reflexivity |].
  exact (proj1 (accepted_address_is_well_formed
                  ("Dave@X.com" ++ String Re.newline "") "dave@x.com"
                  eq_refl)).
Defined.

End PatternFacts.
